(** * Echoes of the Estate backend: the relay servers and their adapters

    A shallow embedding of the two Express servers of the repository:
    [server.js] (the structured-message variant, Anthropic upstream) and
    the second server file (the prompt-concatenation variant, Hugging Face
    upstream).  JavaScript values are an inductive type, exceptions are an
    error monad, the module-level [let] variables are a record threaded
    through the handlers, and everything the process reads from outside
    (clock, upstream replies) is an explicit input of the request. *)

From Stdlib Require Import ZArith List String Ascii Bool Lia DecimalString.
Import ListNotations.
Open Scope string_scope.
Open Scope Z_scope.

#[local] Set Warnings "-register-all".

(** ** JavaScript values *)

(** A JS number: [Int z] is an integer of a magnitude JS prints in plain
    decimal (below 10^21), [Frac t] any other value, carried as the text
    JS prints for it. *)
Inductive number :=
| NaN
| Int (z : Z)
| Frac (text : string).

(** What [JSON.parse] can produce.  [undefined] is not a JSON value: a JS
    value that may be undefined is an [option json]. *)
Inductive json :=
| JNull
| JBool (b : bool)
| JNum (n : number)
| JStr (s : string)
| JArr (items : list json)
| JObj (fields : list (string * json)).

Definition value := option json.
Definition undefined : value := None.

Inductive error :=
| Error (message : string)
| TypeError (message : string)
| SyntaxError (message : string).

Definition message (e : error) : string :=
  match e with
  | Error m | TypeError m | SyntaxError m => m
  end.

(** Evaluation that may throw. *)
Inductive result (A : Type) :=
| Ok (a : A)
| Throw (e : error).
Arguments Ok {A} a.
Arguments Throw {A} e.

Definition bind {A B} (r : result A) (k : A -> result B) : result B :=
  match r with
  | Ok a => k a
  | Throw e => Throw e
  end.

Notation "x <- r ;; k" := (bind r (fun x => k))
  (at level 61, r at next level, right associativity).

Definition nl : string := String (ascii_of_nat 10) "".

Definition number_to_string (n : number) : string :=
  match n with
  | NaN => "NaN"
  | Int z => NilZero.string_of_int (Z.to_int z)
  | Frac t => t
  end.

(** Truthiness, as [if (v)], [!v] and [a && b] test it. *)
Definition truthy (v : value) : bool :=
  match v with
  | None => false
  | Some JNull => false
  | Some (JBool b) => b
  | Some (JNum NaN) => false
  | Some (JNum (Int z)) => negb (z =? 0)
  | Some (JNum (Frac _)) => true
  | Some (JStr s) => negb (s =? "")%string
  | Some (JArr _) => true
  | Some (JObj _) => true
  end.

(** [v === 'text'] *)
Definition strict_eq_string (v : value) (t : string) : bool :=
  match v with
  | Some (JStr s) => (s =? t)%string
  | _ => false
  end.

Definition Array_isArray (v : value) : bool :=
  match v with
  | Some (JArr _) => true
  | _ => false
  end.

Definition typeof_string (v : value) : bool :=
  match v with
  | Some (JStr _) => true
  | _ => false
  end.

Fixpoint lookup (k : string) (fields : list (string * json)) : value :=
  match fields with
  | [] => None
  | (k', v) :: rest => if (k =? k')%string then Some v else lookup k rest
  end.

(** [String(v)], as a template literal applies it.  An array prints its
    elements joined by commas, [null] elements as the empty text.  An
    object prints through [Object.prototype.toString], unless it has a
    field of its own named [toString]: a JSON value is no function, so
    the conversion goes on to [valueOf], gets no primitive there either,
    and throws. *)
Fixpoint json_to_string (j : json) : result string :=
  match j with
  | JNull => Ok "null"
  | JBool true => Ok "true"
  | JBool false => Ok "false"
  | JNum n => Ok (number_to_string n)
  | JStr s => Ok s
  | JArr items =>
      (fix join (l : list json) : result string :=
         match l with
         | [] => Ok ""
         | x :: r =>
             first <- (match x with JNull => Ok "" | _ => json_to_string x end) ;;
             rest <- (match r with
                      | [] => Ok ""
                      | _ => (tail <- join r ;; Ok ("," ++ tail))
                      end) ;;
             Ok (first ++ rest)
         end) items
  | JObj fields =>
      match lookup "toString" fields with
      | Some _ => Throw (TypeError "Cannot convert object to primitive value")
      | None => Ok "[object Object]"
      end
  end.

Definition to_string (v : value) : result string :=
  match v with
  | None => Ok "undefined"
  | Some j => json_to_string j
  end.

(** [v.k] for the property names the servers read ([role], [content],
    [text], [generated_text], [messages], [password]): none of them is
    defined by a built-in prototype, so only an object can carry one;
    reading a property of [null] or [undefined] throws. *)
Definition get (v : value) (k : string) : result value :=
  match v with
  | None =>
      Throw (TypeError ("Cannot read properties of undefined (reading '" ++ k ++ "')"))
  | Some JNull =>
      Throw (TypeError ("Cannot read properties of null (reading '" ++ k ++ "')"))
  | Some (JObj fields) => Ok (lookup k fields)
  | Some _ => Ok None
  end.

(** [v?.k] *)
Definition get_optional (v : value) (k : string) : value :=
  match v with
  | Some (JObj fields) => lookup k fields
  | _ => None
  end.

(** [v[0]] *)
Definition index0 (v : value) : result value :=
  match v with
  | None => Throw (TypeError "Cannot read properties of undefined (reading '0')")
  | Some JNull => Throw (TypeError "Cannot read properties of null (reading '0')")
  | Some (JArr items) => Ok (hd_error items)
  | Some (JStr (String c _)) => Ok (Some (JStr (String c "")))
  | Some (JObj fields) => Ok (lookup "0" fields)
  | Some _ => Ok None
  end.

(** Strings are sequences of code units below 256; these are the ones
    [String.prototype.trim] strips. *)
Definition is_white_space (c : ascii) : bool :=
  let n := nat_of_ascii c in
  (Nat.leb 9 n && Nat.leb n 13) || Nat.eqb n 32 || Nat.eqb n 160.

Fixpoint trimStart (s : string) : string :=
  match s with
  | String c rest => if is_white_space c then trimStart rest else s
  | EmptyString => EmptyString
  end.

Fixpoint trimEnd (s : string) : string :=
  match s with
  | EmptyString => EmptyString
  | String c rest =>
      match trimEnd rest with
      | EmptyString => if is_white_space c then EmptyString else String c EmptyString
      | kept => String c kept
      end
  end.

Definition trim (s : string) : string := trimEnd (trimStart s).

(** [ghostResponse.trim()] on whatever the adapter returned. *)
Definition call_trim (v : value) : result string :=
  match v with
  | Some (JStr s) => Ok (trim s)
  | None => Throw (TypeError "Cannot read properties of undefined (reading 'trim')")
  | Some JNull => Throw (TypeError "Cannot read properties of null (reading 'trim')")
  | Some _ => Throw (TypeError "ghostResponse.trim is not a function")
  end.

(** [messages.slice(-n)]: start at [max (length - n) 0]. *)
Definition slice_last {A} (n : nat) (l : list A) : list A :=
  skipn (List.length l - n) l.

(** ** The upstream, as the adapters see it *)

(** What [fetch] resolves to: [text] is what [response.text()] gives,
    [parsed] what [response.json()] gives (it throws on a body that is not
    JSON). *)
Record Reply := {
  status : Z;
  text : string;
  parsed : result json
}.

Definition ok (r : Reply) : bool := (200 <=? status r) && (status r <=? 299).

Inductive fetched :=
| Rejected (e : error)
| Responded (r : Reply).

(** The JSON bodies the adapters post. *)
Record ClaudeRequest := {
  model : string;
  max_tokens : Z;
  system : value;
  messages : list json
}.

Record HFRequest := {
  inputs : string;
  max_new_tokens : Z;
  temperature : number;
  top_p : number;
  return_full_text : bool
}.

(** What a call does to the outside, in order. *)
Inductive event :=
| FetchClaude (body : ClaudeRequest)
| FetchHF (body : HFRequest)
| Sleep (ms : Z).

(** ** Structured-message adapter ([callClaude], server.js) *)

(** [messages.find(m => m.role === 'system')] *)
Fixpoint find_system (ms : list json) : result value :=
  match ms with
  | [] => Ok None
  | m :: rest =>
      role <- get (Some m) "role" ;;
      if strict_eq_string role "system" then Ok (Some m) else find_system rest
  end.

(** [messages.filter(m => m.role !== 'system')] *)
Fixpoint filter_not_system (ms : list json) : result (list json) :=
  match ms with
  | [] => Ok []
  | m :: rest =>
      role <- get (Some m) "role" ;;
      kept <- filter_not_system rest ;;
      Ok (if negb (strict_eq_string role "system") then m :: kept else kept)
  end.

Definition claude_request (systemMessage : value) (conversationMessages : list json)
  : result ClaudeRequest :=
  sys <- (if truthy systemMessage then get systemMessage "content"
          else Ok (Some (JStr ""))) ;;
  Ok {| model := "claude-3-5-haiku-20241022";
        max_tokens := 200;
        system := sys;
        messages := conversationMessages |}.

Definition claude_reply (f : fetched) : result value :=
  match f with
  | Rejected e => Throw e
  | Responded response =>
      if negb (ok response) then
        Throw (Error ("Claude API error: " ++ number_to_string (Int (status response))
                        ++ " - " ++ text response))
      else
        data <- parsed response ;;
        content <- get (Some data) "content" ;;
        first <- index0 content ;;
        get first "text"
  end.

Definition callClaude (msgs : list json) (upstream : nat -> fetched)
  : result value * list event :=
  match (systemMessage <- find_system msgs ;;
         conversationMessages <- filter_not_system msgs ;;
         claude_request systemMessage conversationMessages) with
  | Throw e => (Throw e, [])
  | Ok body => (claude_reply (upstream 0%nat), [FetchClaude body])
  end.

(** ** Prompt-concatenation adapter ([buildPrompt], [callHuggingFace]) *)

Definition hf_request (prompt : string) : HFRequest :=
  {| inputs := prompt;
     max_new_tokens := 200;
     temperature := Frac "0.8";
     top_p := Frac "0.9";
     return_full_text := false |}.

(** The three accepted shapes of [data], then the throw. *)
Definition normalise (data : json) : result value :=
  listed <- (if Array_isArray (Some data)
             then first <- index0 (Some data) ;;
                  Ok (truthy (get_optional first "generated_text"))
             else Ok false) ;;
  if listed then
    first <- index0 (Some data) ;; get first "generated_text"
  else
    generated <- get (Some data) "generated_text" ;;
    if truthy generated then Ok generated
    else if typeof_string (Some data) then Ok (Some data)
    else Throw (Error "Unexpected response format").

(** One pass through the [try] block of iteration [i]: [inl] is the
    [continue] of the cold-start branch, [inr] a return or a throw. *)
Definition attempt (f : fetched) : unit + result value :=
  match f with
  | Rejected e => inr (Throw e)
  | Responded response =>
      if status response =? 503 then inl tt
      else if negb (ok response) then
        inr (Throw (Error ("HF API error: " ++ number_to_string (Int (status response))
                             ++ " - " ++ text response)))
      else inr (data <- parsed response ;; normalise data)
  end.

(** The [for] loop from iteration [i] on; [left] is [retries - i], the
    number of iterations the loop condition still allows.  Iteration [i]
    performs the [i]-th fetch of the call. *)
Fixpoint retry_loop (prompt : string) (retries : nat) (upstream : nat -> fetched)
    (left i : nat) : result value * list event :=
  match left with
  | O => (Ok undefined, [])
  | S left' =>
      let next := retry_loop prompt retries upstream left' (S i) in
      match attempt (upstream i) with
      | inl tt =>
          (fst next, FetchHF (hf_request prompt) :: Sleep 10000 :: snd next)
      | inr (Ok v) =>
          (Ok v, [FetchHF (hf_request prompt)])
      | inr (Throw e) =>
          if (i =? retries - 1)%nat then
            (Throw e, [FetchHF (hf_request prompt)])
          else
            (fst next, FetchHF (hf_request prompt) :: Sleep 2000 :: snd next)
      end
  end.

Definition callHuggingFace (prompt : string) (upstream : nat -> fetched)
    (retries : nat) : result value * list event :=
  retry_loop prompt retries upstream retries 0.

Definition prompt_step (prompt : string) (msg : json) : result string :=
  role <- get (Some msg) "role" ;;
  if strict_eq_string role "system" then
    content <- get (Some msg) "content" ;;
    printed <- to_string content ;;
    Ok (prompt ++ "<s>[INST] You are playing a character. " ++ printed
          ++ " [/INST]" ++ nl ++ nl)
  else if strict_eq_string role "user" then
    content <- get (Some msg) "content" ;;
    printed <- to_string content ;;
    Ok (prompt ++ "[INST] " ++ printed ++ " [/INST]" ++ nl)
  else if strict_eq_string role "assistant" then
    content <- get (Some msg) "content" ;;
    printed <- to_string content ;;
    Ok (prompt ++ printed ++ nl ++ nl)
  else Ok prompt.

Fixpoint buildPrompt_from (prompt : string) (msgs : list json) : result string :=
  match msgs with
  | [] => Ok prompt
  | msg :: rest => p <- prompt_step prompt msg ;; buildPrompt_from p rest
  end.

Definition buildPrompt (msgs : list json) : result string :=
  buildPrompt_from "" msgs.

(** ** The servers *)

(** A reading of [new Date()]. *)
Record Date := {
  getTime : Z;
  toDateString : string
}.

(** What the routes read of a request: the [x-demo-password] header, the
    client the limiter keys on, and [req.body] as the JSON middleware
    left it. *)
Record Request := {
  x_demo_password : option string;
  ip : string;
  body : json
}.

(** What one request finds outside the process: the clock at the places
    that read it, in the order they are reached, and the upstream's answer
    to each successive fetch. *)
Record Ambient := {
  at_limiter : Date;
  at_reset : Date;
  at_demo : Date;
  upstream : nat -> fetched
}.

(** [process.env] *)
Record Environment := {
  env_DEMO_PASSWORD : option string;
  env_DAILY_REQUEST_LIMIT : option string;
  env_HACKATHON_END_DATE : option string;
  env_NODE_ENV : option string
}.

(** What the servers use and the repository does not define: [parseInt]
    ([None] is NaN), the time value of [new Date(text)] ([None] is an
    invalid date), and the store of express-rate-limit, which counts a hit
    and says whether it is within the configured window and maximum. *)
Class Platform := {
  parseInt : string -> option Z;
  Date_parse : string -> option Z;
  RateStore : Type;
  rate_hit : Z -> Z -> RateStore -> Request -> Date -> RateStore * bool
}.

(** The module-level [let] variables, and the limiter's store. *)
Record Globals `{Platform} := {
  dailyRequestCount : Z;
  lastResetDate : string;
  limiterStore : RateStore
}.

Record Response := {
  statusCode : Z;
  payload : json
}.

Definition res_json (obj : json) : Response :=
  {| statusCode := 200; payload := obj |}.

Definition res_status_json (code : Z) (obj : json) : Response :=
  {| statusCode := code; payload := obj |}.

(** The two server files. *)
Inductive variant :=
| Structured
| Prompt.

(** [process.env.X || 'fallback'] *)
Definition or_default (v : option string) (fallback : string) : string :=
  match v with
  | Some s => if (s =? "")%string then fallback else s
  | None => fallback
  end.

Definition header (h : option string) : value := option_map JStr h.

Definition of_parsed (n : option Z) : number :=
  match n with
  | Some z => Int z
  | None => NaN
  end.

Definition DEMO_PASSWORD (env : Environment) : string :=
  or_default (env_DEMO_PASSWORD env) "echoes2025".

Definition HACKATHON_END_DATE `{Platform} (env : Environment) : option Z :=
  Date_parse (or_default (env_HACKATHON_END_DATE env) "2025-12-31").

Definition isDemoActive `{Platform} (env : Environment) (now : Date) : bool :=
  match HACKATHON_END_DATE env with
  | Some ending => getTime now <=? ending
  | None => false
  end.

(** [today !== lastResetDate] *)
Definition day_changed `{Platform} (now : Date) (g : Globals) : bool :=
  let today := toDateString now in
  negb (today =? lastResetDate g)%string.

Definition resetDailyCounter `{Platform} (now : Date) (g : Globals) : Globals :=
  let today := toDateString now in
  if day_changed now g then
    {| dailyRequestCount := 0;
       lastResetDate := today;
       limiterStore := limiterStore g |}
  else g.

Definition increment `{Platform} (g : Globals) : Globals :=
  {| dailyRequestCount := dailyRequestCount g + 1;
     lastResetDate := lastResetDate g;
     limiterStore := limiterStore g |}.

Definition default_limit (v : variant) : string :=
  match v with
  | Structured => "200"
  | Prompt => "500"
  end.

(** [parseInt(process.env.DAILY_REQUEST_LIMIT || '200')] *)
Definition DAILY_LIMIT `{Platform} (v : variant) (env : Environment) : option Z :=
  parseInt (or_default (env_DAILY_REQUEST_LIMIT env) (default_limit v)).

(** [count >= limit]; a comparison with NaN is false. *)
Definition reached (count : Z) (limit : option Z) : bool :=
  match limit with
  | Some l => l <=? count
  | None => false
  end.

(** [Math.max(0, limit - count)] *)
Definition remaining (limit : option Z) (count : Z) : number :=
  match limit with
  | Some l => Int (Z.max 0 (l - count))
  | None => NaN
  end.

(** A middleware either calls [next()] or sends the response. *)
Inductive verdict :=
| Next
| Send (r : Response).

Definition validatePassword `{Platform} (env : Environment) (req : Request)
    (amb : Ambient) (g : Globals) : Globals * verdict :=
  let password := header (x_demo_password req) in
  if negb (truthy password) || negb (strict_eq_string password (DEMO_PASSWORD env)) then
    (g, Send (res_status_json 401
                (JObj [("error", JStr "Invalid or missing demo password");
                       ("isAuthError", JBool true)])))
  else (g, Next).

Definition chatLimiter `{Platform} (env : Environment) (req : Request)
    (amb : Ambient) (g : Globals) : Globals * verdict :=
  let (store, within) := rate_hit (60 * 1000) 10 (limiterStore g) req (at_limiter amb) in
  let g' := {| dailyRequestCount := dailyRequestCount g;
               lastResetDate := lastResetDate g;
               limiterStore := store |} in
  if within then (g', Next)
  else
    (g', Send (res_status_json 429
                 (JObj [("error", JStr "Too many requests. Please wait a minute and try again.");
                        ("isRateLimited", JBool true)]))).

Definition dailyLimitMiddleware `{Platform} (v : variant) (env : Environment)
    (req : Request) (amb : Ambient) (g : Globals) : Globals * verdict :=
  let g' := resetDailyCounter (at_reset amb) g in
  if reached (dailyRequestCount g') (DAILY_LIMIT v env) then
    (g', Send (res_status_json 429
                 (JObj [("error", JStr "Daily demo limit reached.");
                        ("isDailyLimitReached", JBool true)])))
  else (g', Next).

(** The [catch] block of the chat route. *)
Definition caught (env : Environment) (e : error) : Response :=
  res_status_json 500
    (JObj [("error", JStr "An error occurred.");
           ("details", JStr (if strict_eq_string (header (env_NODE_ENV env)) "development"
                             then message e else "Please try again"))]).

Definition window (v : variant) : nat :=
  match v with
  | Structured => 12%nat
  | Prompt => 8%nat
  end.

Definition chat_provider (v : variant) : string :=
  match v with
  | Structured => "Claude 3.5 Haiku"
  | Prompt => "Hugging Face"
  end.

(** From [limitedMessages] to [ghostResponse]. *)
Definition adapter (v : variant) (limitedMessages : list json) (up : nat -> fetched)
  : result value * list event :=
  match v with
  | Structured => callClaude limitedMessages up
  | Prompt =>
      match buildPrompt limitedMessages with
      | Throw e => (Throw e, [])
      | Ok prompt => callHuggingFace prompt up 3
      end
  end.

Definition array_items (v : value) : list json :=
  match v with
  | Some (JArr items) => items
  | _ => []
  end.

(** [!messages || !Array.isArray(messages) || messages.length === 0] *)
Definition invalid_messages (msgs : value) : bool :=
  negb (truthy msgs) || negb (Array_isArray msgs)
  || (List.length (array_items msgs) =? 0)%nat.

(** The route after [await]: the increment, then the response. *)
Definition complete `{Platform} (v : variant) (env : Environment) (g : Globals)
    (ghost : result value) : Globals * Response :=
  match ghost with
  | Throw e => (g, caught env e)
  | Ok ghostResponse =>
      let g' := increment g in
      match call_trim ghostResponse with
      | Throw e => (g', caught env e)
      | Ok trimmed =>
          (g', res_json
                 (JObj [("message", JStr trimmed);
                        ("isDemoMode", JBool true);
                        ("aiProvider", JStr (chat_provider v));
                        ("requestsRemaining",
                         JNum (remaining (DAILY_LIMIT v env) (dailyRequestCount g')))]))
      end
  end.

(** The [async (req, res)] handler of [/api/chat]. *)
Definition chat_handler `{Platform} (v : variant) (env : Environment) (req : Request)
    (amb : Ambient) (g : Globals) : Globals * Response * list event :=
  if negb (isDemoActive env (at_demo amb)) then
    (g, res_status_json 403
          (JObj [("error", JStr "Demo period has ended."); ("isDemoExpired", JBool true)]),
     [])
  else
    match get (Some (body req)) "messages" with
    | Throw e => (g, caught env e, [])
    | Ok msgs =>
        if invalid_messages msgs then
          (g, res_status_json 400
                (JObj [("error", JStr "Invalid request. Messages array is required.")]),
           [])
        else
          let limitedMessages := slice_last (window v) (array_items msgs) in
          let (ghost, events) := adapter v limitedMessages (upstream amb) in
          (complete v env g ghost, events)
    end.

Definition middleware `{Platform} : Type :=
  Environment -> Request -> Ambient -> Globals -> Globals * verdict.

(** Express runs the middlewares of a route in the order given, each one
    only if the one before called [next()]. *)
Fixpoint run_route `{Platform} (chain : list middleware)
    (final : Environment -> Request -> Ambient -> Globals -> Globals * Response * list event)
    (env : Environment) (req : Request) (amb : Ambient) (g : Globals)
  : Globals * Response * list event :=
  match chain with
  | [] => final env req amb g
  | m :: rest =>
      match m env req amb g with
      | (g', Next) => run_route rest final env req amb g'
      | (g', Send r) => (g', r, [])
      end
  end.

(** [app.post('/api/chat', validatePassword, chatLimiter, dailyLimitMiddleware, ...)] *)
Definition chat `{Platform} (v : variant) : Environment -> Request -> Ambient -> Globals
    -> Globals * Response * list event :=
  run_route [validatePassword; chatLimiter; dailyLimitMiddleware v] (chat_handler v).

Definition health_provider (v : variant) : string :=
  match v with
  | Structured => "Anthropic Claude 3.5 Haiku"
  | Prompt => "Hugging Face (FREE)"
  end.

(** [app.get('/health', ...)] *)
Definition health `{Platform} (v : variant) (env : Environment) (req : Request)
    (amb : Ambient) (g : Globals) : Globals * Response :=
  let g' := resetDailyCounter (at_reset amb) g in
  (g', res_json
         (JObj [("status", JStr "online");
                ("demoActive", JBool (isDemoActive env (at_demo amb)));
                ("requestsToday", JNum (Int (dailyRequestCount g')));
                ("dailyLimit", JNum (of_parsed (DAILY_LIMIT v env)));
                ("remainingToday", JNum (remaining (DAILY_LIMIT v env) (dailyRequestCount g')));
                ("aiProvider", JStr (health_provider v))])).

Definition verified (v : variant) (left : number) : json :=
  match v with
  | Structured =>
      JObj [("valid", JBool true);
            ("message", JStr "Password verified successfully");
            ("requestsRemaining", JNum left);
            ("aiProvider", JStr "Claude 3.5 Haiku")]
  | Prompt =>
      JObj [("valid", JBool true);
            ("message", JStr "Password verified successfully");
            ("requestsRemaining", JNum left)]
  end.

(** [app.post('/api/verify', ...)]; the destructuring of [req.body] is
    outside any [try], a throw there is left to Express. *)
Definition verify `{Platform} (v : variant) (env : Environment) (req : Request)
    (amb : Ambient) (g : Globals) : Globals * result Response :=
  match get (Some (body req)) "password" with
  | Throw e => (g, Throw e)
  | Ok password =>
      if negb (truthy password) then
        (g, Ok (res_status_json 400
                  (JObj [("valid", JBool false); ("error", JStr "Password is required")])))
      else if strict_eq_string password (DEMO_PASSWORD env) then
        let g' := resetDailyCounter (at_reset amb) g in
        (g', Ok (res_json
                   (verified v (remaining (DAILY_LIMIT v env) (dailyRequestCount g')))))
      else
        (g, Ok (res_status_json 401
                  (JObj [("valid", JBool false); ("error", JStr "Invalid password")])))
  end.

(** The state a server starts in. *)
Definition boot `{Platform} (now : Date) (store : RateStore) : Globals :=
  {| dailyRequestCount := 0;
     lastResetDate := toDateString now;
     limiterStore := store |}.

(** A request to one of the three routes, and the server's life as the
    requests it serves one after the other. *)
Inductive call :=
| GetHealth (req : Request) (amb : Ambient)
| PostVerify (req : Request) (amb : Ambient)
| PostChat (req : Request) (amb : Ambient).

Definition serve `{Platform} (v : variant) (env : Environment) (g : Globals) (c : call)
  : Globals :=
  match c with
  | GetHealth req amb => fst (health v env req amb g)
  | PostVerify req amb => fst (verify v env req amb g)
  | PostChat req amb => fst (fst (chat v env req amb g))
  end.

Definition serve_all `{Platform} (v : variant) (env : Environment) (g : Globals)
    (calls : list call) : Globals :=
  fold_left (serve v env) calls g.

(** ** Reading the outcome of a request *)

Definition field (obj : json) (k : string) : value := get_optional (Some obj) k.

(** The four gates of [/api/chat], and the gate a response says it was
    rejected by: each rejection carries its own flag. *)
Inductive gate :=
| Auth
| Rate
| Daily
| Demo.

Definition flagged (r : Response) (flag : string) : bool :=
  match field (payload r) flag with
  | Some (JBool true) => true
  | _ => false
  end.

Definition rejected_by (r : Response) : option gate :=
  if (statusCode r =? 401) && flagged r "isAuthError" then Some Auth
  else if (statusCode r =? 429) && flagged r "isRateLimited" then Some Rate
  else if (statusCode r =? 429) && flagged r "isDailyLimitReached" then Some Daily
  else if (statusCode r =? 403) && flagged r "isDemoExpired" then Some Demo
  else None.

(** The globals once the limiter has counted the hit. *)
Definition after_limiter `{Platform} (req : Request) (amb : Ambient) (g : Globals)
  : Globals :=
  {| dailyRequestCount := dailyRequestCount g;
     lastResetDate := lastResetDate g;
     limiterStore := fst (rate_hit (60 * 1000) 10 (limiterStore g) req (at_limiter amb)) |}.

(** The globals once the daily gate has made its reset check. *)
Definition after_gates `{Platform} (req : Request) (amb : Ambient) (g : Globals)
  : Globals :=
  resetDailyCounter (at_reset amb) (after_limiter req amb g).

(** The test each gate makes, on the state the gates before it leave. *)
Definition passes `{Platform} (v : variant) (env : Environment) (req : Request)
    (amb : Ambient) (g : Globals) (k : gate) : bool :=
  match k with
  | Auth =>
      truthy (header (x_demo_password req))
      && strict_eq_string (header (x_demo_password req)) (DEMO_PASSWORD env)
  | Rate => snd (rate_hit (60 * 1000) 10 (limiterStore g) req (at_limiter amb))
  | Daily =>
      negb (reached (dailyRequestCount (resetDailyCounter (at_reset amb) g))
              (DAILY_LIMIT v env))
  | Demo => isDemoActive env (at_demo amb)
  end.

Definition gates : list gate := [Auth; Rate; Daily; Demo].

(** The state a request rejected by [k] leaves: the gates before [k] and
    [k] itself have run, the ones after it have not. *)
Definition left_by `{Platform} (k : gate) (req : Request) (amb : Ambient) (g : Globals)
  : Globals :=
  match k with
  | Auth => g
  | Rate => after_limiter req amb g
  | Daily | Demo => after_gates req amb g
  end.

(** The reset checks made at successive clock readings: which of them
    took the reset branch, and the globals at the end. *)
Fixpoint reset_checks `{Platform} (readings : list Date) (g : Globals)
  : list bool * Globals :=
  match readings with
  | [] => ([], g)
  | now :: later =>
      let (taken, g') := reset_checks later (resetDailyCounter now g) in
      (day_changed now g :: taken, g')
  end.

(** The calendar-day transitions of the clock itself: for each reading,
    whether its day differs from the day of the reading before. *)
Fixpoint day_transitions (previous : string) (readings : list Date) : list bool :=
  match readings with
  | [] => []
  | now :: later =>
      negb (toDateString now =? previous)%string
      :: day_transitions (toDateString now) later
  end.

(** ** The specification's wording, for comparison *)



Definition is_system (m : json) : bool :=
  strict_eq_string (get_optional (Some m) "role") "system".

(** "Separate the first message with role system; pass the remaining
    messages as the conversation body": only the first one is taken out. *)
Fixpoint spec_conversation_body (msgs : list json) : list json :=
  match msgs with
  | [] => []
  | m :: rest => if is_system m then rest else m :: spec_conversation_body rest
  end.

(** ** A concrete platform and concrete requests *)

Definition digit (c : ascii) : option Z :=
  let n := nat_of_ascii c in
  if (Nat.leb 48 n && Nat.leb n 57)%bool then Some (Z.of_nat n - 48) else None.

(** [parseInt] on a text that starts with its digits: the leading decimal
    digits, NaN when there is none. *)
Fixpoint leading_digits (s : string) (acc : option Z) : option Z :=
  match s with
  | EmptyString => acc
  | String c rest =>
      match digit c with
      | Some d =>
          leading_digits rest (Some (10 * (match acc with Some a => a | None => 0 end) + d))
      | None => acc
      end
  end.

(** A fixed-window store: per client, the hits of the current window and
    the time the window ends. *)
Fixpoint window_of (key : string) (store : list (string * (Z * Z))) : option (Z * Z) :=
  match store with
  | [] => None
  | (k, w) :: rest => if (k =? key)%string then Some w else window_of key rest
  end.

Definition fixed_window_hit (windowMs max : Z) (store : list (string * (Z * Z)))
    (req : Request) (now : Date) : list (string * (Z * Z)) * bool :=
  let hits :=
    match window_of (ip req) store with
    | Some (n, ends) => if getTime now <? ends then (n + 1, ends) else (1, getTime now + windowMs)
    | None => (1, getTime now + windowMs)
    end in
  ((ip req, hits) :: store, fst hits <=? max).

Definition node : Platform :=
  {| parseInt := fun s => leading_digits s None;
     Date_parse := fun s =>
       if (s =? "2025-12-31")%string then Some 1767139200000 else None;
     RateStore := list (string * (Z * Z));
     rate_hit := fixed_window_hit |}.

Definition defaults : Environment :=
  {| env_DEMO_PASSWORD := None;
     env_DAILY_REQUEST_LIMIT := None;
     env_HACKATHON_END_DATE := None;
     env_NODE_ENV := None |}.

Definition said (role content : string) : json :=
  JObj [("role", JStr role); ("content", JStr content)].

(** A 200 answer carrying [data]; its raw text, which the adapters read
    only on a failure status, is left empty. *)
Definition answered (data : json) : fetched :=
  Responded {| status := 200; text := ""; parsed := Ok data |}.

(** The upstream answering the successive fetches with the given list. *)
Definition script (answers : list fetched) (i : nat) : fetched :=
  nth i answers (Rejected (TypeError "fetch failed")).

Definition asking (password : option string) (msgs : list json) : Request :=
  {| x_demo_password := password;
     ip := "203.0.113.7";
     body := JObj [("messages", JArr msgs)] |}.

Definition nov_3 : Date :=
  {| getTime := 1762128000000; toDateString := "Mon Nov 03 2025" |}.

Definition nov_4 : Date :=
  {| getTime := 1762214400000; toDateString := "Tue Nov 04 2025" |}.

Definition jan_2 : Date :=
  {| getTime := 1767312000000; toDateString := "Fri Jan 02 2026" |}.

Definition on_day (d : Date) (answers : list fetched) : Ambient :=
  {| at_limiter := d; at_reset := d; at_demo := d; upstream := script answers |}.

(** Five requests served since the last reset, on the third of November. *)
Definition no_hits : @RateStore node := @nil (string * (Z * Z)).

Definition busy : @Globals node :=
  {| dailyRequestCount := 5; lastResetDate := "Mon Nov 03 2025"; limiterStore := no_hits |}.

Definition cold : fetched :=
  Responded {| status := 503;
               text := "Model google/flan-t5-base is currently loading";
               parsed := Ok (JObj [("error", JStr "Model google/flan-t5-base is currently loading")]) |}.

Definition haunted : list json :=
  [said "system" "You are Eleanor"; said "user" "Who is there?";
   said "system" "Speak in riddles"].

(** Twenty messages, numbered in the order they were said. *)
Definition chatter : list json :=
  map (fun k => said "user" (number_to_string (Int (Z.of_nat k)))) (seq 1 20).

Definition boo : fetched :=
  answered (JObj [("content", JArr [JObj [("type", JStr "text"); ("text", JStr "  Boo. ")]])]).

Definition with_password (secret : json) : Request :=
  {| x_demo_password := None;
     ip := "203.0.113.7";
     body := JObj [("password", secret)] |}.

(** The response each gate sends when it rejects. *)
Definition rejection (k : gate) : Response :=
  match k with
  | Auth =>
      res_status_json 401
        (JObj [("error", JStr "Invalid or missing demo password");
               ("isAuthError", JBool true)])
  | Rate =>
      res_status_json 429
        (JObj [("error", JStr "Too many requests. Please wait a minute and try again.");
               ("isRateLimited", JBool true)])
  | Daily =>
      res_status_json 429
        (JObj [("error", JStr "Daily demo limit reached.");
               ("isDailyLimitReached", JBool true)])
  | Demo =>
      res_status_json 403
        (JObj [("error", JStr "Demo period has ended."); ("isDemoExpired", JBool true)])
  end.

(** The messages array of a request that every gate and the validation
    let through. *)
Definition admitted `{Platform} (v : variant) (env : Environment) (req : Request)
    (amb : Ambient) (g : Globals) : option (list json) :=
  if forallb (passes v env req amb g) gates then
    match get (Some (body req)) "messages" with
    | Ok msgs => if invalid_messages msgs then None else Some (array_items msgs)
    | Throw _ => None
    end
  else None.

(** ** Counting what a call did *)

Definition is_fetch (e : event) : bool :=
  match e with
  | FetchClaude _ | FetchHF _ => true
  | Sleep _ => false
  end.

(** The number of upstream calls among the events. *)
Definition fetches (events : list event) : nat :=
  List.length (filter is_fetch events).

(** The time spent waiting, in milliseconds. *)
Fixpoint waited (events : list event) : Z :=
  match events with
  | [] => 0
  | Sleep ms :: rest => ms + waited rest
  | _ :: rest => waited rest
  end.

(** ** The CORS origin option *)

(** [s.split(',')] *)
Fixpoint split_comma (s : string) : list string :=
  match s with
  | EmptyString => [EmptyString]
  | String c rest =>
      if Ascii.eqb c ","%char then EmptyString :: split_comma rest
      else
        match split_comma rest with
        | piece :: pieces => String c piece :: pieces
        | [] => [String c EmptyString]
        end
  end.

(** The [origin] option handed to [cors]: a text or an array of texts. *)
Inductive origin :=
| OriginText (t : string)
| OriginList (allowed : list string).

(** [process.env.ALLOWED_ORIGINS ? process.env.ALLOWED_ORIGINS.split(',') : '*'] *)
Definition cors_origin (ALLOWED_ORIGINS : option string) : origin :=
  if truthy (header ALLOWED_ORIGINS) then
    OriginList (split_comma (match ALLOWED_ORIGINS with Some s => s | None => "" end))
  else OriginText "*".

Fixpoint has_comma (s : string) : bool :=
  match s with
  | EmptyString => false
  | String c rest => Ascii.eqb c ","%char || has_comma rest
  end.

(** ** More concrete settings *)

Definition with_limit (limit : string) : Environment :=
  {| env_DEMO_PASSWORD := None;
     env_DAILY_REQUEST_LIMIT := Some limit;
     env_HACKATHON_END_DATE := None;
     env_NODE_ENV := None |}.

Definition with_end_date (ending : string) : Environment :=
  {| env_DEMO_PASSWORD := None;
     env_DAILY_REQUEST_LIMIT := None;
     env_HACKATHON_END_DATE := Some ending;
     env_NODE_ENV := None |}.

Definition refused : fetched :=
  Responded {| status := 401;
               text := "invalid x-api-key";
               parsed := Throw (SyntaxError "Unexpected token i in JSON at position 0") |}.

Definition dec_31 : Date :=
  {| getTime := 1767139200000; toDateString := "Wed Dec 31 2025" |}.

Definition jan_3 : Date :=
  {| getTime := 1767398400000; toDateString := "Sat Jan 03 2026" |}.

Definition only_me : fetched :=
  answered (JArr [JObj [("generated_text", JStr "Only me")]]).

(** ** What makes [buildPrompt] throw *)

(** Whether [String(j)] gives a text: [j] is no object with a field of
    its own named [toString], and holds none in a list, at any depth. *)
Fixpoint printable (j : json) : bool :=
  match j with
  | JArr items =>
      (fix all (l : list json) : bool :=
         match l with
         | [] => true
         | x :: r => printable x && all r
         end) items
  | JObj fields =>
      match lookup "toString" fields with
      | Some _ => false
      | None => true
      end
  | _ => true
  end.

Definition printable_value (v : value) : bool :=
  match v with
  | None => true
  | Some j => printable j
  end.

(** Whether the loop reads the content of an entry: its role is one of
    the three. *)
Definition speaks (m : json) : bool :=
  strict_eq_string (get_optional (Some m) "role") "system"
  || strict_eq_string (get_optional (Some m) "role") "user"
  || strict_eq_string (get_optional (Some m) "role") "assistant".

(** An entry the loop cannot get past: null, or one whose content it
    reads and cannot print. *)
Definition breaks_prompt (m : json) : bool :=
  match m with
  | JNull => true
  | _ => speaks m && negb (printable_value (get_optional (Some m) "content"))
  end.

(** ** The body as it is sent *)

(** [res.json] writes the object with [JSON.stringify], where NaN becomes
    [null]: this is the body as the client reads it. *)
Fixpoint as_sent (j : json) : json :=
  match j with
  | JNum NaN => JNull
  | JArr items => JArr (map as_sent items)
  | JObj fields => JObj (map (fun kv => (fst kv, as_sent (snd kv))) fields)
  | _ => j
  end.

(** * Properties *)

(** ** The route as a decision list *)

Lemma resetDailyCounter_after_limiter `{Platform} now req amb g :
  dailyRequestCount (resetDailyCounter now (after_limiter req amb g))
  = dailyRequestCount (resetDailyCounter now g).
Proof.
  unfold resetDailyCounter, day_changed, after_limiter; simpl.
  destruct (negb _); reflexivity.
Qed.

Lemma chat_cases `{Platform} v env req amb g :
  chat v env req amb g =
    if negb (passes v env req amb g Auth) then (g, rejection Auth, [])
    else if negb (passes v env req amb g Rate) then
      (after_limiter req amb g, rejection Rate, [])
    else if negb (passes v env req amb g Daily) then
      (after_gates req amb g, rejection Daily, [])
    else chat_handler v env req amb (after_gates req amb g).
Proof.
  unfold chat, run_route, validatePassword, chatLimiter, dailyLimitMiddleware.
  unfold passes at 1.
  rewrite negb_andb.
  destruct (negb (truthy _) || negb (strict_eq_string _ _)); [reflexivity|].
  cbn [negb].
  unfold passes at 1.
  fold (after_limiter req amb g).
  destruct (rate_hit (60 * 1000) 10 (limiterStore g) req (at_limiter amb))
    as [store within] eqn:Hhit.
  assert (Hg : after_limiter req amb g
               = {| dailyRequestCount := dailyRequestCount g;
                    lastResetDate := lastResetDate g;
                    limiterStore := store |}).
  { unfold after_limiter. rewrite Hhit. reflexivity. }
  rewrite <- Hg. cbn [snd].
  destruct within; cbn [negb]; [|reflexivity].
  unfold passes. rewrite <- (resetDailyCounter_after_limiter (at_reset amb) req amb g).
  fold (after_gates req amb g).
  destruct (reached _ _); reflexivity.
Qed.

Lemma rejected_by_rejection k : rejected_by (rejection k) = Some k.
Proof. destruct k; reflexivity. Qed.

Lemma rejected_by_caught env e : rejected_by (caught env e) = None.
Proof. reflexivity. Qed.

Lemma complete_not_rejected `{Platform} v env g ghost :
  rejected_by (snd (complete v env g ghost)) = None.
Proof.
  unfold complete.
  destruct ghost as [w|e]; [|reflexivity].
  destruct (call_trim w); reflexivity.
Qed.

(** Past the demo check, the handler either rejects the body, or is
    caught, or hands the trimmed history to the adapter. *)
Lemma chat_handler_active `{Platform} v env req amb g :
  isDemoActive env (at_demo amb) = true ->
  chat_handler v env req amb g =
    match get (Some (body req)) "messages" with
    | Throw e => (g, caught env e, [])
    | Ok msgs =>
        if invalid_messages msgs then
          (g, res_status_json 400
                (JObj [("error", JStr "Invalid request. Messages array is required.")]),
           [])
        else
          (complete v env g
             (fst (adapter v (slice_last (window v) (array_items msgs)) (upstream amb))),
           snd (adapter v (slice_last (window v) (array_items msgs)) (upstream amb)))
    end.
Proof.
  intros Hdemo. unfold chat_handler. rewrite Hdemo. cbn [negb].
  destruct (get _ _) as [msgs|e]; [|reflexivity].
  destruct (invalid_messages msgs); [reflexivity|].
  destruct (adapter _ _ _); reflexivity.
Qed.

Lemma chat_handler_not_rejected `{Platform} v env req amb g :
  isDemoActive env (at_demo amb) = true ->
  rejected_by (snd (fst (chat_handler v env req amb g))) = None.
Proof.
  intros Hdemo. rewrite (chat_handler_active _ _ _ _ _ Hdemo).
  destruct (get _ _) as [msgs|e]; [|reflexivity].
  destruct (invalid_messages msgs); [reflexivity|].
  cbn [fst snd]. apply complete_not_rejected.
Qed.

Lemma chat_handler_expired `{Platform} v env req amb g :
  isDemoActive env (at_demo amb) = false ->
  chat_handler v env req amb g = (g, rejection Demo, []).
Proof. intros Hdemo. unfold chat_handler. rewrite Hdemo. reflexivity. Qed.

Lemma chat_admitted `{Platform} v env req amb g msgs :
  admitted v env req amb g = Some msgs ->
  chat v env req amb g =
    (complete v env (after_gates req amb g)
       (fst (adapter v (slice_last (window v) msgs) (upstream amb))),
     snd (adapter v (slice_last (window v) msgs) (upstream amb))).
Proof.
  unfold admitted, gates, forallb. intros Hadm. rewrite chat_cases.
  destruct (passes v env req amb g Auth); [|discriminate].
  destruct (passes v env req amb g Rate); [|discriminate].
  destruct (passes v env req amb g Daily); [|discriminate].
  destruct (passes v env req amb g Demo) eqn:Hdemo; [|discriminate].
  cbn [negb andb] in *.
  rewrite (chat_handler_active _ _ _ _ _ Hdemo).
  destruct (get _ _) as [m|e]; [|discriminate].
  destruct (invalid_messages m); [discriminate|].
  injection Hadm as <-. reflexivity.
Qed.

(** ** Gate order *)

(** The request ends at a gate: the response read back is that gate's
    rejection, and the outcome is the one stated. *)
Ltac stops_here :=
  cbn [fst snd]; rewrite rejected_by_rejection;
  split; [reflexivity|];
  let k := fresh "k" in let Hk := fresh "Hk" in
  intros k Hk; injection Hk as <-; reflexivity.

(** The response is the rejection of the first gate whose test fails, and
    a rejected request ends there. *)
Lemma chat_stops_at_first_failure `{Platform} v env req amb g :
  let out := chat v env req amb g in
  let first_failure := find (fun k => negb (passes v env req amb g k)) gates in
  rejected_by (snd (fst out)) = first_failure
  /\ (forall k, first_failure = Some k ->
        out = (left_by k req amb g, rejection k, [])).
Proof.
  cbv zeta. rewrite chat_cases. unfold gates, find.
  destruct (passes v env req amb g Auth) eqn:Ha; cbn [negb]; [|stops_here].
  destruct (passes v env req amb g Rate) eqn:Hr; cbn [negb]; [|stops_here].
  destruct (passes v env req amb g Daily) eqn:Hd; cbn [negb]; [|stops_here].
  destruct (passes v env req amb g Demo) eqn:Hx; cbn [negb].
  - rewrite (chat_handler_not_rejected _ _ _ _ _ Hx).
    split; [reflexivity|discriminate].
  - rewrite (chat_handler_expired _ _ _ _ _ Hx). stops_here.
Qed.

Lemma first_failure_passes (pass : gate -> bool) :
  match find (fun k => negb (pass k)) gates with
  | Some Auth => pass Auth = false
  | Some Rate => pass Auth = true /\ pass Rate = false
  | Some Daily => pass Auth = true /\ pass Rate = true /\ pass Daily = false
  | Some Demo =>
      pass Auth = true /\ pass Rate = true /\ pass Daily = true /\ pass Demo = false
  | None => forallb pass gates = true
  end.
Proof.
  unfold gates, find, forallb.
  destruct (pass Auth), (pass Rate), (pass Daily), (pass Demo); cbn; auto.
Qed.

(** C6.  For every [/api/chat] request the gates are evaluated in the order
    authentication, rate limit, daily quota, demo window: the response is
    the rejection of the first gate in that order whose test fails, and
    none when all four pass; a rejected request stops there (no upstream
    call, and the globals are as the gates up to the rejecting one leave
    them, the later ones not having run); the demo-expiry rejection occurs
    only when the first three gates have passed; and a request no gate
    fails goes on to the handler's body. *)
Theorem chat_gates_in_order `{Platform} v env req amb g :
  let out := chat v env req amb g in
  let first_failure := find (fun k => negb (passes v env req amb g k)) gates in
  rejected_by (snd (fst out)) = first_failure
  /\ (forall k, first_failure = Some k ->
        out = (left_by k req amb g, rejection k, []))
  /\ (rejected_by (snd (fst out)) = Some Demo ->
        passes v env req amb g Auth = true
        /\ passes v env req amb g Rate = true
        /\ passes v env req amb g Daily = true
        /\ isDemoActive env (at_demo amb) = false)
  /\ (first_failure = None ->
        forallb (passes v env req amb g) gates = true
        /\ out = chat_handler v env req amb (after_gates req amb g)).
Proof.
  cbv zeta.
  destruct (chat_stops_at_first_failure v env req amb g) as [Hfirst Hstop].
  pose proof (first_failure_passes (passes v env req amb g)) as Hpass.
  split; [exact Hfirst|]. split; [exact Hstop|]. split.
  - intros Hdemo. rewrite Hfirst in Hdemo. rewrite Hdemo in Hpass. exact Hpass.
  - intros Hnone. rewrite Hnone in Hpass. split; [exact Hpass|].
    rewrite chat_cases. unfold gates, forallb in Hpass.
    destruct (passes v env req amb g Auth); [|discriminate].
    destruct (passes v env req amb g Rate); [|discriminate].
    destruct (passes v env req amb g Daily); [|discriminate].
    reflexivity.
Qed.

(** ** The daily counter along [/api/chat] *)

(** A claim about a response of a given status that no gate and no
    [catch] sends: the request has passed the gates, the demo check and
    the reading of the body. *)
Ltac by_status v env req amb g :=
  rewrite chat_cases;
  destruct (passes v env req amb g Auth); cbn [negb]; [|discriminate];
  destruct (passes v env req amb g Rate); cbn [negb]; [|discriminate];
  destruct (passes v env req amb g Daily); cbn [negb]; [|discriminate];
  let Hx := fresh "Hx" in
  destruct (isDemoActive env (at_demo amb)) eqn:Hx;
  [ rewrite (chat_handler_active _ _ _ _ _ Hx);
    let m := fresh "m" in let e := fresh "e" in
    destruct (get _ _) as [m|e]; [|discriminate]
  | rewrite (chat_handler_expired _ _ _ _ _ Hx); discriminate ].

(** C5, as amended.  A request rejected by the authentication or the rate
    gate leaves the counter as it was; every later outcome starts from the
    counter as the daily gate's lazy day reset leaves it.  A rejection by
    the daily or the demo gate, and a rejected body (400), leave it at that
    value; no rejection calls the upstream.  For an admitted request, an
    adapter that throws gives a 500 and leaves the counter at that value,
    and an adapter that returns a text gives a 200, the counter at that
    value plus one, and [requestsRemaining] computed from the incremented
    counter.  A 200 is sent only with the counter incremented by one. *)
Theorem chat_counter `{Platform} v env req amb g :
  let out := chat v env req amb g in
  let g' := fst (fst out) in
  let r := snd (fst out) in
  let g0 := resetDailyCounter (at_reset amb) g in
  (forall k, rejected_by r = Some k ->
     snd out = []
     /\ dailyRequestCount g'
        = match k with
          | Auth | Rate => dailyRequestCount g
          | Daily | Demo => dailyRequestCount g0
          end)
  /\ (statusCode r = 400 ->
        snd out = [] /\ dailyRequestCount g' = dailyRequestCount g0)
  /\ (statusCode r = 200 ->
        dailyRequestCount g' = dailyRequestCount g0 + 1
        /\ field (payload r) "requestsRemaining"
           = Some (JNum (remaining (DAILY_LIMIT v env) (dailyRequestCount g'))))
  /\ (forall msgs, admitted v env req amb g = Some msgs ->
        let called := adapter v (slice_last (window v) msgs) (upstream amb) in
        snd out = snd called
        /\ (forall e, fst called = Throw e ->
              statusCode r = 500 /\ dailyRequestCount g' = dailyRequestCount g0)
        /\ (forall s, fst called = Ok (Some (JStr s)) ->
              statusCode r = 200
              /\ dailyRequestCount g' = dailyRequestCount g0 + 1
              /\ field (payload r) "requestsRemaining"
                 = Some (JNum (remaining (DAILY_LIMIT v env) (dailyRequestCount g'))))).
Proof.
  cbv zeta.
  assert (Hcount : dailyRequestCount (after_gates req amb g)
                   = dailyRequestCount (resetDailyCounter (at_reset amb) g))
    by apply resetDailyCounter_after_limiter.
  split; [|split; [|split]].
  - intros k Hk.
    destruct (chat_stops_at_first_failure v env req amb g) as [Hfirst Hstop].
    rewrite Hfirst in Hk. rewrite (Hstop k Hk). cbn [fst snd].
    split; [reflexivity|].
    destruct k; cbn [left_by]; try reflexivity; exact Hcount.
  - by_status v env req amb g.
    destruct (invalid_messages m); [intros _; split; [reflexivity|exact Hcount]|].
    cbn [fst snd]. unfold complete.
    destruct (fst (adapter _ _ _)) as [w|e]; [|discriminate].
    destruct (call_trim w); discriminate.
  - by_status v env req amb g.
    destruct (invalid_messages m); [discriminate|].
    cbn [fst snd]. unfold complete.
    destruct (fst (adapter _ _ _)) as [w|e]; [|discriminate].
    destruct (call_trim w); [|discriminate].
    intros _. cbn. rewrite Hcount. split; reflexivity.
  - intros msgs Hadm. rewrite (chat_admitted _ _ _ _ _ _ Hadm). cbn [fst snd].
    split; [reflexivity|]. split.
    + intros e He. rewrite He. cbn. split; [reflexivity|exact Hcount].
    + intros s Hs. rewrite Hs. cbn. rewrite Hcount. repeat split.
Qed.

(** ** The history handed to the adapter *)

Lemma slice_last_suffix {A} (n : nat) (l : list A) :
  (firstn (List.length l - n) l ++ slice_last n l)%list = l.
Proof. apply firstn_skipn. Qed.

Lemma slice_last_length {A} (n : nat) (l : list A) :
  List.length (slice_last n l) = Nat.min n (List.length l).
Proof. unfold slice_last. rewrite length_skipn. lia. Qed.

Lemma slice_last_short {A} (n : nat) (l : list A) :
  (List.length l <= n)%nat -> slice_last n l = l.
Proof.
  intros Hle. unfold slice_last.
  replace (List.length l - n)%nat with 0%nat by lia. reflexivity.
Qed.

(** C7.  For every messages array of an admitted request, the adapter is
    called on the most recent 12 entries in the structured-message variant
    and the most recent 8 in the prompt-concatenation variant: a suffix of
    the array (so in the original order), of length the smaller of the
    window and the array's length, the whole array when it has no more
    entries than the window. *)
Theorem chat_history_window `{Platform} v env req amb g msgs :
  admitted v env req amb g = Some msgs ->
  let limited := slice_last (window v) msgs in
  chat v env req amb g
  = (complete v env (after_gates req amb g) (fst (adapter v limited (upstream amb))),
     snd (adapter v limited (upstream amb)))
  /\ window Structured = 12%nat
  /\ window Prompt = 8%nat
  /\ (exists older, msgs = (older ++ limited)%list)
  /\ List.length limited = Nat.min (window v) (List.length msgs)
  /\ ((List.length msgs <= window v)%nat -> limited = msgs).
Proof.
  intros Hadm limited. split; [exact (chat_admitted _ _ _ _ _ _ Hadm)|].
  split; [reflexivity|]. split; [reflexivity|]. split; [|split].
  - exists (firstn (List.length msgs - window v) msgs).
    symmetry. apply slice_last_suffix.
  - apply slice_last_length.
  - apply slice_last_short.
Qed.

(** ** The lazy day reset *)

Lemma resetDailyCounter_cases `{Platform} now g :
  (toDateString now <> lastResetDate g ->
     dailyRequestCount (resetDailyCounter now g) = 0
     /\ lastResetDate (resetDailyCounter now g) = toDateString now)
  /\ (toDateString now = lastResetDate g -> resetDailyCounter now g = g)
  /\ limiterStore (resetDailyCounter now g) = limiterStore g.
Proof.
  unfold resetDailyCounter, day_changed.
  destruct (String.eqb_spec (toDateString now) (lastResetDate g)) as [Heq|Hneq];
    cbn [negb].
  - split; [intros Hd; contradiction|]. split; reflexivity.
  - split; [intros _; split; reflexivity|]. split; [intros Hd; contradiction|reflexivity].
Qed.

Lemma resetDailyCounter_day `{Platform} now g :
  lastResetDate (resetDailyCounter now g) = toDateString now.
Proof.
  unfold resetDailyCounter, day_changed.
  destruct (String.eqb_spec (toDateString now) (lastResetDate g)) as [Heq|Hneq];
    cbn [negb]; [symmetry; exact Heq|reflexivity].
Qed.

Lemma resetDailyCounter_count `{Platform} now g :
  dailyRequestCount (resetDailyCounter now g) = dailyRequestCount g
  \/ dailyRequestCount (resetDailyCounter now g) = 0.
Proof.
  unfold resetDailyCounter. destruct (day_changed now g); [right|left]; reflexivity.
Qed.

Lemma reset_checks_transitions `{Platform} readings :
  forall g, fst (reset_checks readings g) = day_transitions (lastResetDate g) readings.
Proof.
  induction readings as [|now later IH]; intros g; [reflexivity|].
  cbn [reset_checks day_transitions].
  specialize (IH (resetDailyCounter now g)).
  destruct (reset_checks later (resetDailyCounter now g)) as [taken g'].
  cbn [fst] in *. rewrite IH, resetDailyCounter_day. reflexivity.
Qed.

Lemma complete_count `{Platform} v env g ghost :
  dailyRequestCount (fst (complete v env g ghost)) = dailyRequestCount g
  \/ dailyRequestCount (fst (complete v env g ghost)) = dailyRequestCount g + 1.
Proof.
  unfold complete. destruct ghost as [w|e]; [|left; reflexivity].
  destruct (call_trim w); right; reflexivity.
Qed.

Lemma chat_handler_count `{Platform} v env req amb g :
  dailyRequestCount (fst (fst (chat_handler v env req amb g))) = dailyRequestCount g
  \/ dailyRequestCount (fst (fst (chat_handler v env req amb g))) = dailyRequestCount g + 1.
Proof.
  destruct (isDemoActive env (at_demo amb)) eqn:Hx.
  - rewrite (chat_handler_active _ _ _ _ _ Hx).
    destruct (get _ _) as [m|e]; [|left; reflexivity].
    destruct (invalid_messages m); [left; reflexivity|].
    cbn [fst]. apply complete_count.
  - rewrite (chat_handler_expired _ _ _ _ _ Hx). left; reflexivity.
Qed.

Lemma serve_nonneg `{Platform} v env g c :
  0 <= dailyRequestCount g -> 0 <= dailyRequestCount (serve v env g c).
Proof.
  intros Hg. destruct c as [req amb|req amb|req amb]; cbn [serve].
  - unfold health. cbn [fst].
    destruct (resetDailyCounter_count (at_reset amb) g); lia.
  - unfold verify.
    destruct (get _ _) as [password|e]; [|exact Hg].
    destruct (negb (truthy password)); [exact Hg|].
    destruct (strict_eq_string password (DEMO_PASSWORD env)); [|exact Hg].
    cbn [fst]. destruct (resetDailyCounter_count (at_reset amb) g); lia.
  - assert (Hgates : 0 <= dailyRequestCount (after_gates req amb g)).
    { unfold after_gates. rewrite resetDailyCounter_after_limiter.
      destruct (resetDailyCounter_count (at_reset amb) g); lia. }
    rewrite chat_cases.
    destruct (negb (passes v env req amb g Auth)); [exact Hg|].
    destruct (negb (passes v env req amb g Rate)); [exact Hg|].
    destruct (negb (passes v env req amb g Daily)); [exact Hgates|].
    destruct (chat_handler_count v env req amb (after_gates req amb g)); lia.
Qed.

Lemma serve_all_nonneg `{Platform} v env calls :
  forall g, 0 <= dailyRequestCount g -> 0 <= dailyRequestCount (serve_all v env g calls).
Proof.
  unfold serve_all.
  induction calls as [|c calls IH]; intros g Hg; [exact Hg|].
  cbn [fold_left]. apply IH, serve_nonneg, Hg.
Qed.

(** C8.  [resetDailyCounter] zeroes the count and stores the current day
    when the current calendar day differs from the stored one, and leaves
    the globals as they are when it does not; over any succession of reset
    checks, the checks that reset are exactly those whose reading is on
    another day than the reading before (one reset per day transition, at
    the first check after it); and the count is never negative: every
    operation of the server keeps it non-negative, so it is non-negative in
    every state a server reaches from its start. *)
Theorem resetDailyCounter_lazy `{Platform} :
  (forall now g,
     (toDateString now <> lastResetDate g ->
        dailyRequestCount (resetDailyCounter now g) = 0
        /\ lastResetDate (resetDailyCounter now g) = toDateString now)
     /\ (toDateString now = lastResetDate g -> resetDailyCounter now g = g)
     /\ limiterStore (resetDailyCounter now g) = limiterStore g)
  /\ (forall readings g,
        fst (reset_checks readings g) = day_transitions (lastResetDate g) readings)
  /\ (forall now g, resetDailyCounter now (resetDailyCounter now g) = resetDailyCounter now g)
  /\ (forall v env g c,
        0 <= dailyRequestCount g -> 0 <= dailyRequestCount (serve v env g c))
  /\ (forall v env now store calls,
        0 <= dailyRequestCount (serve_all v env (boot now store) calls)).
Proof.
  split; [exact resetDailyCounter_cases|].
  split; [intros readings g; apply reset_checks_transitions|].
  split; [|split].
  - intros now g.
    apply (resetDailyCounter_cases now (resetDailyCounter now g)).
    symmetry. apply resetDailyCounter_day.
  - intros v env g c. apply serve_nonneg.
  - intros v env now store calls. apply serve_all_nonneg. cbn. lia.
Qed.

(** ** [/health] *)

(** C9.  [GET /health] answers 200 with the status body whatever the
    request carries and whatever the globals are: the body has the six
    fields status, demoActive, requestsToday, dailyLimit, remainingToday
    and aiProvider, computed from the clock, the limit and the counter as
    the reset check leaves it (given both as the object handed to
    [res.json] and as the body sent, where a limit that is NaN reads
    [null]).  The globals it leaves are those of the
    reset check alone: the limiter's store is untouched, and the counter
    is either as it was or, on a new day, zero (so never above a
    non-negative counter it started from). *)
Theorem health_always_online `{Platform} v env req amb g :
  let out := health v env req amb g in
  statusCode (snd out) = 200
  /\ payload (snd out)
     = JObj [("status", JStr "online");
             ("demoActive", JBool (isDemoActive env (at_demo amb)));
             ("requestsToday", JNum (Int (dailyRequestCount (fst out))));
             ("dailyLimit", JNum (of_parsed (DAILY_LIMIT v env)));
             ("remainingToday",
              JNum (remaining (DAILY_LIMIT v env) (dailyRequestCount (fst out))));
             ("aiProvider", JStr (match v with
                                  | Structured => "Anthropic Claude 3.5 Haiku"
                                  | Prompt => "Hugging Face (FREE)"
                                  end))]
  /\ as_sent (payload (snd out))
     = JObj [("status", JStr "online");
             ("demoActive", JBool (isDemoActive env (at_demo amb)));
             ("requestsToday", JNum (Int (dailyRequestCount (fst out))));
             ("dailyLimit", match DAILY_LIMIT v env with
                            | Some limit => JNum (Int limit)
                            | None => JNull
                            end);
             ("remainingToday",
              match DAILY_LIMIT v env with
              | Some limit => JNum (Int (Z.max 0 (limit - dailyRequestCount (fst out))))
              | None => JNull
              end);
             ("aiProvider", JStr (match v with
                                  | Structured => "Anthropic Claude 3.5 Haiku"
                                  | Prompt => "Hugging Face (FREE)"
                                  end))]
  /\ field (payload (snd out)) "status" = Some (JStr "online")
  /\ field (payload (snd out)) "requestsToday"
     = Some (JNum (Int (dailyRequestCount (fst out))))
  /\ fst out = resetDailyCounter (at_reset amb) g
  /\ limiterStore (fst out) = limiterStore g
  /\ (if day_changed (at_reset amb) g
      then dailyRequestCount (fst out) = 0
           /\ lastResetDate (fst out) = toDateString (at_reset amb)
      else fst out = g)
  /\ (0 <= dailyRequestCount g -> dailyRequestCount (fst out) <= dailyRequestCount g).
Proof.
  cbv zeta. unfold health. cbn [fst snd].
  split; [reflexivity|]. split; [destruct v; reflexivity|].
  split; [destruct v, (DAILY_LIMIT _ env); reflexivity|].
  repeat split; try reflexivity.
  - apply resetDailyCounter_cases.
  - unfold resetDailyCounter. destruct (day_changed (at_reset amb) g); auto.
  - unfold resetDailyCounter. destruct (day_changed (at_reset amb) g); cbn; lia.
Qed.

(** ** [buildPrompt] and the validation of the body *)

Lemma prompt_step_other_role m role prompt :
  get (Some m) "role" = Ok role ->
  strict_eq_string role "system" = false ->
  strict_eq_string role "user" = false ->
  strict_eq_string role "assistant" = false ->
  prompt_step prompt m = Ok prompt.
Proof.
  intros Hrole Hs Hu Ha. unfold prompt_step.
  rewrite Hrole. cbn [bind]. rewrite Hs, Hu, Ha. reflexivity.
Qed.

Lemma buildPrompt_from_skips m later :
  (forall prompt, prompt_step prompt m = Ok prompt) ->
  forall earlier prompt,
    buildPrompt_from prompt (earlier ++ m :: later)%list
    = buildPrompt_from prompt (earlier ++ later)%list.
Proof.
  intros Hskip earlier.
  induction earlier as [|x earlier IH]; intros prompt; cbn [app buildPrompt_from].
  - rewrite Hskip. reflexivity.
  - destruct (prompt_step prompt x) as [p|e]; cbn [bind]; [apply IH|reflexivity].
Qed.

Lemma invalid_messages_array items :
  invalid_messages (Some (JArr items)) = (List.length items =? 0)%nat.
Proof. reflexivity. Qed.

(** C10.  In the prompt-concatenation variant a message whose role is
    none of system, user and assistant adds nothing to the prompt: the
    step of the loop leaves the prompt as it is, and the prompt built from
    a history is the one built from the history without that message.  The
    validation of the body looks at the array's length alone, so an array
    holding such a message is accepted. *)
Theorem buildPrompt_drops_other_roles m role :
  get (Some m) "role" = Ok role ->
  strict_eq_string role "system" = false ->
  strict_eq_string role "user" = false ->
  strict_eq_string role "assistant" = false ->
  (forall prompt, prompt_step prompt m = Ok prompt)
  /\ (forall earlier later,
        buildPrompt (earlier ++ m :: later)%list = buildPrompt (earlier ++ later)%list)
  /\ (forall earlier later,
        invalid_messages (Some (JArr (earlier ++ m :: later)%list)) = false)
  /\ (forall items,
        invalid_messages (Some (JArr items)) = (List.length items =? 0)%nat).
Proof.
  intros Hrole Hs Hu Ha.
  assert (Hskip : forall prompt, prompt_step prompt m = Ok prompt)
    by (intros prompt; exact (prompt_step_other_role _ _ _ Hrole Hs Hu Ha)).
  split; [exact Hskip|]. split; [|split].
  - intros earlier later. unfold buildPrompt. apply buildPrompt_from_skips, Hskip.
  - intros earlier later. rewrite invalid_messages_array, length_app.
    cbn [List.length]. apply Nat.eqb_neq. lia.
  - exact invalid_messages_array.
Qed.

(** ** [callClaude]: the system instruction and the conversation body *)

Lemma get_role_of_entry m :
  m <> JNull -> get (Some m) "role" = Ok (get_optional (Some m) "role").
Proof. intros Hm. destruct m; try reflexivity. contradiction. Qed.

Lemma find_system_find msgs :
  Forall (fun m => m <> JNull) msgs ->
  find_system msgs = Ok (find is_system msgs).
Proof.
  induction 1 as [|m rest Hm Hrest IH]; [reflexivity|].
  cbn [find_system find]. rewrite (get_role_of_entry _ Hm). cbn [bind].
  unfold is_system at 1.
  destruct (strict_eq_string _ _); [reflexivity|exact IH].
Qed.

Lemma filter_not_system_filter msgs :
  Forall (fun m => m <> JNull) msgs ->
  filter_not_system msgs = Ok (filter (fun m => negb (is_system m)) msgs).
Proof.
  induction 1 as [|m rest Hm Hrest IH]; [reflexivity|].
  cbn [filter_not_system filter]. rewrite (get_role_of_entry _ Hm). cbn [bind].
  rewrite IH. cbn [bind]. reflexivity.
Qed.

Lemma system_content m :
  is_system m = true ->
  (if truthy (Some m) then get (Some m) "content" else Ok (Some (JStr "")))
  = Ok (get_optional (Some m) "content").
Proof. destruct m; cbn; try discriminate. reflexivity. Qed.

(** C3, as amended.  For every sequence of messages (none of them null)
    the structured-message adapter sends, as the system instruction, the
    content of the first message whose role is system, the empty text when
    there is none, and, as the conversation body, the messages whose role
    is not system, in their original order: every system-role message, the
    first and any later one, is left out of the body. *)
Theorem callClaude_separates_system msgs up :
  Forall (fun m => m <> JNull) msgs ->
  snd (callClaude msgs up)
  = [FetchClaude
       {| model := "claude-3-5-haiku-20241022";
          max_tokens := 200;
          system := match find is_system msgs with
                    | Some first => get_optional (Some first) "content"
                    | None => Some (JStr "")
                    end;
          messages := filter (fun m => negb (is_system m)) msgs |}]
  /\ fst (callClaude msgs up) = claude_reply (up 0%nat)
  /\ Forall (fun m => is_system m = false) (filter (fun m => negb (is_system m)) msgs).
Proof.
  intros Hmsgs. unfold callClaude.
  rewrite (find_system_find _ Hmsgs), (filter_not_system_filter _ Hmsgs).
  cbn [bind]. unfold claude_request.
  destruct (find is_system msgs) as [first|] eqn:Hfind.
  - apply find_some in Hfind. destruct Hfind as [_ Hsys].
    rewrite (system_content _ Hsys). cbn [bind fst snd].
    repeat split.
    apply Forall_forall. intros m Hin. apply filter_In in Hin.
    destruct Hin as [_ Hneg]. apply negb_true_iff in Hneg. exact Hneg.
  - cbn [truthy bind fst snd]. repeat split.
    apply Forall_forall. intros m Hin. apply filter_In in Hin.
    destruct Hin as [_ Hneg]. apply negb_true_iff in Hneg. exact Hneg.
Qed.

(** ** [callHuggingFace]: the retry loop *)

Lemma retry_loop_cold prompt retries up left i response :
  up i = Responded response ->
  status response = 503 ->
  retry_loop prompt retries up (S left) i
  = (fst (retry_loop prompt retries up left (S i)),
     FetchHF (hf_request prompt) :: Sleep 10000
       :: snd (retry_loop prompt retries up left (S i))).
Proof.
  intros Hup Hcold. cbn [retry_loop]. unfold attempt.
  rewrite Hup, Hcold. reflexivity.
Qed.

(** However many attempts are allowed, an upstream that stays cold makes
    the loop run out and return [undefined]. *)
Lemma retry_loop_all_cold prompt retries up :
  (forall i, exists response, up i = Responded response /\ status response = 503) ->
  forall left i, fst (retry_loop prompt retries up left i) = Ok undefined.
Proof.
  intros Hcold left.
  induction left as [|left IH]; intros i; [reflexivity|].
  destruct (Hcold i) as [response [Hup Hstatus]].
  rewrite (retry_loop_cold _ _ _ _ _ _ Hup Hstatus). cbn [fst]. apply IH.
Qed.



(** C1.  Three cold-start answers in a row use up the three attempts, each
    followed by its ten-second wait, and the adapter then returns
    [undefined]: no error is raised. *)
Theorem callHuggingFace_cold_start_exhausted prompt (texts : nat -> string)
    (bodies : nat -> result json) :
  callHuggingFace prompt
    (fun i => Responded {| status := 503; text := texts i; parsed := bodies i |}) 3
  = (Ok undefined,
     [FetchHF (hf_request prompt); Sleep 10000;
      FetchHF (hf_request prompt); Sleep 10000;
      FetchHF (hf_request prompt); Sleep 10000]).
Proof. reflexivity. Qed.


(** ** [/api/verify] *)

Lemma DEMO_PASSWORD_truthy env : truthy (Some (JStr (DEMO_PASSWORD env))) = true.
Proof.
  unfold DEMO_PASSWORD, or_default.
  destruct (env_DEMO_PASSWORD env) as [s|]; [|reflexivity].
  destruct (String.eqb_spec s "") as [Hs|Hs]; [reflexivity|].
  cbn. apply negb_true_iff. apply String.eqb_neq. exact Hs.
Qed.

(** C4, as amended.  In both variants, when the password read from the
    body is absent or falsy (the empty text among them), [/api/verify]
    answers 400 with valid:false and leaves the globals alone; when it is
    the configured secret, it makes the reset check and answers 200 with
    valid:true, a message and requestsRemaining, and in the
    structured-message variant aiProvider; for any other password it
    answers 401 with valid:false and leaves the globals alone. *)
Theorem verify_outcomes `{Platform} v env req amb g password :
  get (Some (body req)) "password" = Ok password ->
  let out := verify v env req amb g in
  (truthy password = false ->
     fst out = g
     /\ exists r, snd out = Ok r /\ statusCode r = 400
                  /\ field (payload r) "valid" = Some (JBool false))
  /\ (password = Some (JStr (DEMO_PASSWORD env)) ->
        fst out = resetDailyCounter (at_reset amb) g
        /\ exists r, snd out = Ok r /\ statusCode r = 200
             /\ field (payload r) "valid" = Some (JBool true)
             /\ field (payload r) "message" = Some (JStr "Password verified successfully")
             /\ field (payload r) "requestsRemaining"
                = Some (JNum (remaining (DAILY_LIMIT v env) (dailyRequestCount (fst out))))
             /\ (v = Structured ->
                   field (payload r) "aiProvider" = Some (JStr "Claude 3.5 Haiku")))
  /\ (truthy password = true ->
      password <> Some (JStr (DEMO_PASSWORD env)) ->
        fst out = g
        /\ exists r, snd out = Ok r /\ statusCode r = 401
                     /\ field (payload r) "valid" = Some (JBool false)).
Proof.
  intros Hget. cbv zeta. unfold verify. rewrite Hget.
  split; [|split].
  - intros Hfalsy. rewrite Hfalsy. cbn [negb fst snd].
    split; [reflexivity|]. eexists. repeat split.
  - intros ->. rewrite DEMO_PASSWORD_truthy. cbn [negb strict_eq_string].
    rewrite String.eqb_refl. cbn [fst snd].
    split; [reflexivity|]. eexists. split; [reflexivity|].
    destruct v; repeat split; discriminate.
  - intros Htruthy Hother. rewrite Htruthy. cbn [negb].
    assert (Hneq : strict_eq_string password (DEMO_PASSWORD env) = false).
    { destruct password as [[|b|n|s|items|fields]|]; try reflexivity.
      cbn. apply String.eqb_neq. intros ->. apply Hother. reflexivity. }
    rewrite Hneq. cbn [fst snd].
    split; [reflexivity|]. eexists. repeat split.
Qed.

(** * Concrete runs *)

(** The cold-start exhaustion seen from the route: the request is counted
    (5 becomes 6) and then answered 500, [trim] being called on
    [undefined]. *)
Lemma chat_cold_start_is_counted :
  let out := @chat node Prompt defaults (asking (Some "echoes2025") haunted)
               (on_day nov_3 [cold; cold; cold]) busy in
  statusCode (snd (fst out)) = 500
  /\ dailyRequestCount busy = 5
  /\ dailyRequestCount (fst (fst out)) = 6.
Proof. vm_compute. repeat split. Qed.

(** A cold start on the first attempt and a text on the second: the
    adapter waits ten seconds and returns the second answer's text. *)
Example cold_start_then_text :
  callHuggingFace "Who is there?"
    (script [cold; answered (JArr [JObj [("generated_text", JStr "Only me")]])]) 3
  = (Ok (Some (JStr "Only me")),
     [FetchHF (hf_request "Who is there?"); Sleep 10000;
      FetchHF (hf_request "Who is there?")]).
Proof. reflexivity. Qed.

(** Three failed fetches: the third failure is thrown, after exactly three
    attempts and two waits of two seconds. *)
Example three_failures_are_thrown :
  callHuggingFace "Who is there?" (script []) 3
  = (Throw (TypeError "fetch failed"),
     [FetchHF (hf_request "Who is there?"); Sleep 2000;
      FetchHF (hf_request "Who is there?"); Sleep 2000;
      FetchHF (hf_request "Who is there?")]).
Proof. reflexivity. Qed.

(** The structured-message server on a new day: the counter restarts and
    counts the request, the reply is trimmed, 199 requests remain. *)
Example chat_on_a_new_day :
  dailyRequestCount
    (fst (fst (@chat node Structured defaults (asking (Some "echoes2025") haunted)
                 (on_day nov_4 [boo]) busy))) = 1
  /\ snd (fst (@chat node Structured defaults (asking (Some "echoes2025") haunted)
                 (on_day nov_4 [boo]) busy))
     = res_json (JObj [("message", JStr "Boo.");
                       ("isDemoMode", JBool true);
                       ("aiProvider", JStr "Claude 3.5 Haiku");
                       ("requestsRemaining", JNum (Int 199))]).
Proof. split; reflexivity. Qed.



(** A second system message is left out of the body the adapter sends,
    where the specification's reading keeps it. *)
Lemma later_system_message_is_dropped :
  snd (callClaude haunted (script [boo]))
  = [FetchClaude
       {| model := "claude-3-5-haiku-20241022";
          max_tokens := 200;
          system := Some (JStr "You are Eleanor");
          messages := [said "user" "Who is there?"] |}]
  /\ spec_conversation_body haunted
     = [said "user" "Who is there?"; said "system" "Speak in riddles"]
  /\ [said "user" "Who is there?"] <> spec_conversation_body haunted.
Proof. repeat split. discriminate. Qed.

Lemma callClaude_separates_system_witness :
  snd (callClaude haunted (script [boo]))
  = [FetchClaude
       {| model := "claude-3-5-haiku-20241022";
          max_tokens := 200;
          system := match find is_system haunted with
                    | Some first => get_optional (Some first) "content"
                    | None => Some (JStr "")
                    end;
          messages := filter (fun m => negb (is_system m)) haunted |}]
  /\ fst (callClaude haunted (script [boo])) = claude_reply (script [boo] 0%nat)
  /\ Forall (fun m => is_system m = false) (filter (fun m => negb (is_system m)) haunted).
Proof.
  apply (callClaude_separates_system haunted (script [boo])).
  repeat constructor; discriminate.
Defined.

(** An empty password is answered 400, not 401, and the
    prompt-concatenation server's answer to the right password carries no
    aiProvider. *)
Lemma verify_empty_password_and_missing_provider :
  option_map statusCode
    (match snd (@verify node Structured defaults (with_password (JStr ""))
                  (on_day nov_3 []) busy) with
     | Ok r => Some r
     | Throw _ => None
     end) = Some 400
  /\ match snd (@verify node Prompt defaults (with_password (JStr "echoes2025"))
                  (on_day nov_3 []) busy) with
     | Ok r => statusCode r = 200 /\ field (payload r) "aiProvider" = None
     | Throw _ => False
     end.
Proof. split; [reflexivity|]. cbn. split; reflexivity. Qed.

Lemma verify_outcomes_witness :
  fst (@verify node Structured defaults (with_password (JStr "echoes2025"))
         (on_day nov_4 []) busy)
  = @resetDailyCounter node nov_4 busy.
Proof.
  destruct (@verify_outcomes node Structured defaults (with_password (JStr "echoes2025"))
              (on_day nov_4 []) busy (Some (JStr "echoes2025")) eq_refl)
    as [_ [Hright _]].
  apply Hright. reflexivity.
Defined.

(** A request rejected by the demo gate on a new day: the rejection is
    sent, and the counter has gone from 5 to 0. *)
Lemma expired_demo_resets_counter :
  rejected_by (snd (fst (@chat node Structured defaults (asking (Some "echoes2025") haunted)
                           (on_day jan_2 [boo]) busy))) = Some Demo
  /\ dailyRequestCount busy = 5
  /\ dailyRequestCount
       (fst (fst (@chat node Structured defaults (asking (Some "echoes2025") haunted)
                    (on_day jan_2 [boo]) busy))) = 0.
Proof. vm_compute. repeat split. Qed.

Lemma chat_counter_witness :
  statusCode (snd (fst (@chat node Structured defaults (asking (Some "echoes2025") haunted)
                          (on_day nov_4 [boo]) busy))) = 200
  /\ dailyRequestCount
       (fst (fst (@chat node Structured defaults (asking (Some "echoes2025") haunted)
                    (on_day nov_4 [boo]) busy)))
     = dailyRequestCount (@resetDailyCounter node nov_4 busy) + 1
  /\ field (payload (snd (fst (@chat node Structured defaults
                                 (asking (Some "echoes2025") haunted)
                                 (on_day nov_4 [boo]) busy)))) "requestsRemaining"
     = Some (JNum (remaining (@DAILY_LIMIT node Structured defaults)
                     (dailyRequestCount
                        (fst (fst (@chat node Structured defaults
                                     (asking (Some "echoes2025") haunted)
                                     (on_day nov_4 [boo]) busy)))))).
Proof.
  destruct (@chat_counter node Structured defaults (asking (Some "echoes2025") haunted)
              (on_day nov_4 [boo]) busy) as [_ [_ [_ Hadmitted]]].
  destruct (Hadmitted haunted eq_refl) as [_ [_ Htext]].
  apply (Htext "  Boo. "). reflexivity.
Defined.

Lemma chat_gates_in_order_witness :
  @passes node Structured defaults (asking (Some "echoes2025") haunted)
    (on_day jan_2 [boo]) busy Auth = true
  /\ @passes node Structured defaults (asking (Some "echoes2025") haunted)
       (on_day jan_2 [boo]) busy Rate = true
  /\ @passes node Structured defaults (asking (Some "echoes2025") haunted)
       (on_day jan_2 [boo]) busy Daily = true
  /\ @isDemoActive node defaults (at_demo (on_day jan_2 [boo])) = false.
Proof.
  destruct (@chat_gates_in_order node Structured defaults
              (asking (Some "echoes2025") haunted) (on_day jan_2 [boo]) busy)
    as [_ [_ [Hdemo _]]].
  apply Hdemo. reflexivity.
Defined.

Lemma chat_history_window_witness :
  List.length (slice_last (window Structured) chatter) = 12%nat
  /\ slice_last (window Structured) chatter
     = map (fun k => said "user" (number_to_string (Int (Z.of_nat k)))) (seq 9 12).
Proof.
  destruct (@chat_history_window node Structured defaults (asking (Some "echoes2025") chatter)
              (on_day nov_4 [boo]) busy chatter eq_refl)
    as [_ [_ [_ [_ [Hlength _]]]]].
  split; [exact Hlength|reflexivity].
Defined.

Lemma resetDailyCounter_lazy_witness :
  dailyRequestCount (@resetDailyCounter node nov_4 busy) = 0
  /\ lastResetDate (@resetDailyCounter node nov_4 busy) = "Tue Nov 04 2025".
Proof.
  destruct (@resetDailyCounter_lazy node) as [Hcases _].
  destruct (Hcases nov_4 busy) as [Hchanged _].
  apply Hchanged. discriminate.
Defined.

Lemma health_always_online_witness :
  dailyRequestCount
    (fst (@health node Prompt defaults (asking None []) (on_day nov_4 []) busy))
  <= dailyRequestCount busy.
Proof.
  destruct (@health_always_online node Prompt defaults (asking None [])
              (on_day nov_4 []) busy) as [_ [_ [_ [_ [_ [_ [_ [_ Hle]]]]]]]].
  apply Hle. cbn. lia.
Defined.

Lemma buildPrompt_drops_other_roles_witness :
  buildPrompt [said "user" "Who is there?"; said "narrator" "The candle gutters";
               said "assistant" "Only me"]
  = buildPrompt [said "user" "Who is there?"; said "assistant" "Only me"].
Proof.
  destruct (buildPrompt_drops_other_roles (said "narrator" "The candle gutters")
              (Some (JStr "narrator")) eq_refl eq_refl eq_refl eq_refl)
    as [_ [Hdrop _]].
  exact (Hdrop [said "user" "Who is there?"] [said "assistant" "Only me"]).
Defined.

(** * Further properties of the servers *)

(** ** Authentication *)

Lemma DEMO_PASSWORD_not_empty env : DEMO_PASSWORD env <> "".
Proof.
  unfold DEMO_PASSWORD, or_default.
  destruct (env_DEMO_PASSWORD env) as [s|]; [|discriminate].
  destruct (String.eqb_spec s ""); [discriminate|assumption].
Qed.

(** X1.  The authentication gate lets a request through exactly when its
    [x-demo-password] header is the configured secret, and the secret is
    never the empty text (an unset or empty [DEMO_PASSWORD] falls back to
    the built-in one), so a missing or empty header never authenticates.
    A request it rejects is answered 401 with [isAuthError], calls no
    upstream, and leaves the globals, the limiter's store among them, as
    they were. *)
Theorem validatePassword_exact `{Platform} v env req amb g :
  (passes v env req amb g Auth = true <-> x_demo_password req = Some (DEMO_PASSWORD env))
  /\ DEMO_PASSWORD env <> ""
  /\ (if passes v env req amb g Auth then validatePassword env req amb g = (g, Next)
      else validatePassword env req amb g = (g, Send (rejection Auth))
           /\ chat v env req amb g = (g, rejection Auth, [])).
Proof.
  pose proof (DEMO_PASSWORD_not_empty env) as Hsecret.
  split; [|split; [exact Hsecret|]].
  - unfold passes, header. destruct (x_demo_password req) as [s|]; cbn.
    + split.
      * intros Hpass. apply andb_true_iff in Hpass. destruct Hpass as [_ Heq].
        apply String.eqb_eq in Heq. congruence.
      * intros Heq. injection Heq as ->. apply andb_true_iff. split.
        -- apply negb_true_iff, String.eqb_neq, Hsecret.
        -- apply String.eqb_refl.
    + split; discriminate.
  - rewrite chat_cases. unfold validatePassword. unfold passes at 1 2 3.
    rewrite <- negb_andb.
    destruct (truthy _ && strict_eq_string _ _); cbn [negb]; [reflexivity|].
    split; reflexivity.
Qed.

(** ** The daily quota *)

Lemma resetDailyCounter_same_day `{Platform} now g :
  toDateString now = lastResetDate g -> resetDailyCounter now g = g.
Proof. apply resetDailyCounter_cases. Qed.


(** X2.  Once the counter has reached the limit, a request on the same
    calendar day that passes the authentication and the rate gate is
    answered 429 with [isDailyLimitReached]: the upstream is not called and
    the counter and the stored day stay as they are (the limiter has
    counted the hit). *)
Theorem daily_gate_closed `{Platform} v env req amb g l :
  DAILY_LIMIT v env = Some l ->
  toDateString (at_reset amb) = lastResetDate g ->
  l <= dailyRequestCount g ->
  passes v env req amb g Auth = true ->
  passes v env req amb g Rate = true ->
  chat v env req amb g = (after_limiter req amb g, rejection Daily, [])
  /\ dailyRequestCount (after_limiter req amb g) = dailyRequestCount g
  /\ lastResetDate (after_limiter req amb g) = lastResetDate g.
Proof.
  intros Hlimit Hday Hfull Ha Hr.
  split; [|split; reflexivity].
  rewrite chat_cases, Ha, Hr. cbn [negb].
  unfold passes. rewrite (resetDailyCounter_same_day _ _ Hday), Hlimit.
  unfold reached. destruct (Z.leb_spec l (dailyRequestCount g)); [|lia].
  cbn [negb]. unfold after_gates.
  rewrite resetDailyCounter_same_day; [reflexivity|exact Hday].
Qed.



Lemma serve_within_limit `{Platform} v env g c l :
  DAILY_LIMIT v env = Some l ->
  0 <= l ->
  dailyRequestCount g <= l ->
  dailyRequestCount (serve v env g c) <= l.
Proof.
  intros Hlimit Hl Hg.
  assert (Hreset : forall now, dailyRequestCount (resetDailyCounter now g) <= l).
  { intros now. destruct (resetDailyCounter_count now g); lia. }
  destruct c as [req amb|req amb|req amb]; cbn [serve].
  - unfold health. cbn [fst]. apply Hreset.
  - unfold verify.
    destruct (get _ _) as [password|e]; [|exact Hg].
    destruct (negb (truthy password)); [exact Hg|].
    destruct (strict_eq_string password (DEMO_PASSWORD env)); [|exact Hg].
    cbn [fst]. apply Hreset.
  - assert (Hgates : dailyRequestCount (after_gates req amb g)
                     = dailyRequestCount (resetDailyCounter (at_reset amb) g))
      by apply resetDailyCounter_after_limiter.
    rewrite chat_cases.
    destruct (negb (passes v env req amb g Auth)); [exact Hg|].
    destruct (negb (passes v env req amb g Rate)); [exact Hg|].
    destruct (passes v env req amb g Daily) eqn:Hd; cbn [negb].
    2:{ cbn [fst]. rewrite Hgates. apply Hreset. }
    unfold passes in Hd. rewrite Hlimit in Hd. unfold reached in Hd.
    apply negb_true_iff, Z.leb_gt in Hd.
    destruct (chat_handler_count v env req amb (after_gates req amb g)); lia.
Qed.

Lemma serve_all_within_limit `{Platform} v env l :
  DAILY_LIMIT v env = Some l ->
  0 <= l ->
  forall calls g,
    0 <= dailyRequestCount g <= l ->
    0 <= dailyRequestCount (serve_all v env g calls) <= l.
Proof.
  intros Hlimit Hl calls g [Hlo Hhi].
  split; [apply serve_all_nonneg, Hlo|].
  revert g Hhi Hlo. unfold serve_all.
  induction calls as [|c calls IH]; intros g Hg Hlo; [exact Hg|].
  cbn [fold_left]. apply IH.
  - apply (serve_within_limit _ _ _ _ _ Hlimit Hl Hg).
  - apply serve_nonneg, Hlo.
Qed.

(** X5.  With a limit that parses to a non-negative number, requests
    served one after the other never take the counter above the limit: in
    every state a server reaches from its start the counter is between
    zero and the limit. *)
Theorem counter_within_limit `{Platform} v env l :
  DAILY_LIMIT v env = Some l ->
  0 <= l ->
  forall now store calls,
    0 <= dailyRequestCount (serve_all v env (boot now store) calls) <= l.
Proof.
  intros Hlimit Hl now store calls.
  apply (serve_all_within_limit _ _ _ Hlimit Hl). cbn. lia.
Qed.

(** X6.  In every state such a server reaches, the numbers [/health]
    reports add up: the requests of the day and the remaining requests sum
    to the limit, the clamp at zero never being needed. *)
Theorem health_numbers_add_up `{Platform} v env l :
  DAILY_LIMIT v env = Some l ->
  0 <= l ->
  forall now store calls req amb,
    let r := snd (health v env req amb (serve_all v env (boot now store) calls)) in
    exists c,
      0 <= c <= l
      /\ field (payload r) "requestsToday" = Some (JNum (Int c))
      /\ field (payload r) "remainingToday" = Some (JNum (Int (l - c)))
      /\ field (payload r) "dailyLimit" = Some (JNum (Int l)).
Proof.
  intros Hlimit Hl now store calls req amb. cbv zeta.
  assert (Hstart : 0 <= dailyRequestCount (boot now store) <= l) by (cbn; lia).
  pose proof (serve_all_within_limit v env l Hlimit Hl
                (calls ++ [GetHealth req amb])%list _ Hstart) as Hbound.
  unfold serve_all in Hbound. rewrite fold_left_app in Hbound.
  cbn [fold_left serve] in Hbound.
  unfold health in *. cbn [fst snd payload res_json] in *.
  exists (dailyRequestCount
            (resetDailyCounter (at_reset amb) (fold_left (serve v env) calls (boot now store)))).
  split; [exact Hbound|]. rewrite Hlimit.
  split; [reflexivity|]. split; [|reflexivity].
  cbn [field get_optional lookup String.eqb Ascii.eqb Bool.eqb remaining].
  unfold serve_all. do 3 f_equal. lia.
Qed.

(** ** The demo window *)

(** X7.  The demo is active exactly while the clock is at or before a
    valid end date, the end instant included; so once a reading finds it
    expired, every later reading does too. *)
Theorem demo_expiry_is_permanent `{Platform} env now later :
  getTime now <= getTime later ->
  isDemoActive env now = false ->
  isDemoActive env later = false
  /\ (forall t, isDemoActive env t = true
                <-> exists ending, HACKATHON_END_DATE env = Some ending
                                   /\ getTime t <= ending).
Proof.
  intros Horder Hnow. unfold isDemoActive in *.
  destruct (HACKATHON_END_DATE env) as [ending|].
  - split.
    + apply Z.leb_gt in Hnow. apply Z.leb_gt. lia.
    + intros t. split.
      * intros Ht. exists ending. split; [reflexivity|apply Z.leb_le, Ht].
      * intros [ending' [Heq Ht]]. injection Heq as <-. apply Z.leb_le, Ht.
  - split; [reflexivity|].
    intros t. split; [discriminate|]. intros [ending [Heq _]]. discriminate.
Qed.

(** X8.  With an end date that is not a date, the demo is never active:
    no [/api/chat] request reaches the upstream or is counted, each one is
    rejected by a gate, and a request that passes the first three gates is
    answered 403 with [isDemoExpired]. *)
Theorem invalid_end_date_closes_demo `{Platform} v env req amb g :
  HACKATHON_END_DATE env = None ->
  snd (chat v env req amb g) = []
  /\ (exists k, chat v env req amb g = (left_by k req amb g, rejection k, []))
  /\ (passes v env req amb g Auth && passes v env req amb g Rate
      && passes v env req amb g Daily = true ->
      chat v env req amb g = (after_gates req amb g, rejection Demo, [])).
Proof.
  intros Hdate.
  assert (Hdemo : passes v env req amb g Demo = false).
  { unfold passes, isDemoActive. rewrite Hdate. reflexivity. }
  destruct (chat_stops_at_first_failure v env req amb g) as [_ Hstop].
  cbv zeta in Hstop. unfold gates, find in Hstop.
  destruct (passes v env req amb g Auth); cbn [negb andb] in *.
  2:{ rewrite (Hstop Auth eq_refl). split; [reflexivity|].
      split; [exists Auth; reflexivity|discriminate]. }
  destruct (passes v env req amb g Rate); cbn [negb andb] in *.
  2:{ rewrite (Hstop Rate eq_refl). split; [reflexivity|].
      split; [exists Rate; reflexivity|discriminate]. }
  destruct (passes v env req amb g Daily); cbn [negb andb] in *.
  2:{ rewrite (Hstop Daily eq_refl). split; [reflexivity|].
      split; [exists Daily; reflexivity|discriminate]. }
  rewrite Hdemo in Hstop. cbn [negb] in Hstop.
  rewrite (Hstop Demo eq_refl). split; [reflexivity|].
  split; [exists Demo; reflexivity|reflexivity].
Qed.

(** ** The responses of [/api/chat] *)

(** Every response of the route is a gate's rejection, the 400 of the
    validation, the 500 of the [catch] block, or the success body. *)
Lemma chat_response_cases `{Platform} v env req amb g :
  let r := snd (fst (chat v env req amb g)) in
  (exists k, r = rejection k)
  \/ r = res_status_json 400
           (JObj [("error", JStr "Invalid request. Messages array is required.")])
  \/ (exists e, r = caught env e)
  \/ (exists s n, r = res_json (JObj [("message", JStr s);
                                      ("isDemoMode", JBool true);
                                      ("aiProvider", JStr (chat_provider v));
                                      ("requestsRemaining", JNum n)])).
Proof.
  cbv zeta. rewrite chat_cases.
  destruct (negb (passes v env req amb g Auth)); [left; exists Auth; reflexivity|].
  destruct (negb (passes v env req amb g Rate)); [left; exists Rate; reflexivity|].
  destruct (negb (passes v env req amb g Daily)); [left; exists Daily; reflexivity|].
  destruct (isDemoActive env (at_demo amb)) eqn:Hx.
  2:{ rewrite (chat_handler_expired _ _ _ _ _ Hx). left; exists Demo; reflexivity. }
  rewrite (chat_handler_active _ _ _ _ _ Hx).
  destruct (get _ _) as [m|e]; [|right; right; left; exists e; reflexivity].
  destruct (invalid_messages m); [right; left; reflexivity|].
  cbn [fst snd]. unfold complete.
  destruct (fst (adapter _ _ _)) as [w|e]; [|right; right; left; exists e; reflexivity].
  destruct (call_trim w) as [s|e]; [|right; right; left; exists e; reflexivity].
  right; right; right. eexists. eexists. reflexivity.
Qed.


(** X10.  Outside the development mode the 500 of [/api/chat] says
    nothing about what went wrong: its body is the same whatever error
    was caught. *)
Theorem chat_hides_error_detail `{Platform} v env req amb g :
  env_NODE_ENV env <> Some "development" ->
  statusCode (snd (fst (chat v env req amb g))) = 500 ->
  payload (snd (fst (chat v env req amb g)))
  = JObj [("error", JStr "An error occurred."); ("details", JStr "Please try again")].
Proof.
  intros Hmode.
  assert (Hcaught : forall e, caught env e
            = res_status_json 500
                (JObj [("error", JStr "An error occurred.");
                       ("details", JStr "Please try again")])).
  { intros e. unfold caught, header.
    destruct (env_NODE_ENV env) as [mode|]; [|reflexivity].
    cbn. destruct (String.eqb_spec mode "development") as [->|_]; [|reflexivity].
    contradiction Hmode. reflexivity. }
  destruct (chat_response_cases v env req amb g)
    as [[k Hr]|[Hr|[[e Hr]|[s [n Hr]]]]]; rewrite Hr.
  - destruct k; discriminate.
  - discriminate.
  - intros _. rewrite Hcaught. reflexivity.
  - discriminate.
Qed.

(** X11.  For an admitted request the counter is incremented exactly when
    the adapter returns, whatever it returns, and the answer is 200
    exactly when what it returned is a text; an adapter that returns
    anything else (undefined, a number, an object) is counted and answered
    500. *)
Theorem chat_counts_what_the_adapter_returns `{Platform} v env req amb g msgs :
  admitted v env req amb g = Some msgs ->
  let out := chat v env req amb g in
  let called := adapter v (slice_last (window v) msgs) (upstream amb) in
  let before := dailyRequestCount (resetDailyCounter (at_reset amb) g) in
  (dailyRequestCount (fst (fst out)) = before + 1 <-> exists w, fst called = Ok w)
  /\ (dailyRequestCount (fst (fst out)) = before <-> exists e, fst called = Throw e)
  /\ (statusCode (snd (fst out)) = 200 <-> exists s, fst called = Ok (Some (JStr s)))
  /\ (statusCode (snd (fst out)) = 500
      <-> forall s, fst called <> Ok (Some (JStr s))).
Proof.
  intros Hadm. cbv zeta. rewrite (chat_admitted _ _ _ _ _ _ Hadm). cbn [fst snd].
  rewrite <- (resetDailyCounter_after_limiter (at_reset amb) req amb g).
  fold (after_gates req amb g).
  unfold complete.
  destruct (fst (adapter v (slice_last (window v) msgs) (upstream amb))) as [w|e].
  - assert (Hstatus : forall r, statusCode (snd (increment (after_gates req amb g), r))
                                = statusCode r) by reflexivity.
    split; [|split; [|split]].
    + destruct (call_trim w); cbn; split; eauto.
    + destruct (call_trim w); cbn; split; try lia; intros [thrown He]; discriminate.
    + destruct w as [[|b|n|s|items|fields]|]; cbn;
        (split; [try discriminate; eauto | intros [s' Hs]; try discriminate; reflexivity]).
    + destruct w as [[|b|n|s|items|fields]|]; cbn;
        (split; [try discriminate; intros _ s' Hs; discriminate
                | try reflexivity; intros Hno; exfalso; apply (Hno s); reflexivity]).
  - cbn. split; [|split; [|split]].
    + split; [lia|]. intros [w Hw]; discriminate.
    + split; eauto.
    + split; [discriminate|]. intros [s Hs]; discriminate.
    + split; [intros _ s Hs; discriminate|reflexivity].
Qed.

(** ** The retry loop of [callHuggingFace], counted *)

Lemma retry_loop_step prompt retries up left i :
  retry_loop prompt retries up (S left) i
  = match attempt (up i) with
    | inl tt =>
        (fst (retry_loop prompt retries up left (S i)),
         FetchHF (hf_request prompt) :: Sleep 10000
           :: snd (retry_loop prompt retries up left (S i)))
    | inr (Ok w) => (Ok w, [FetchHF (hf_request prompt)])
    | inr (Throw e) =>
        if (i =? retries - 1)%nat then (Throw e, [FetchHF (hf_request prompt)])
        else (fst (retry_loop prompt retries up left (S i)),
              FetchHF (hf_request prompt) :: Sleep 2000
                :: snd (retry_loop prompt retries up left (S i)))
    end.
Proof. reflexivity. Qed.

Lemma retry_loop_bounded prompt retries up :
  forall left i,
    (fetches (snd (retry_loop prompt retries up left i)) <= left)%nat
    /\ (Nat.min 1 left <= fetches (snd (retry_loop prompt retries up left i)))%nat
    /\ 0 <= waited (snd (retry_loop prompt retries up left i)) <= 10000 * Z.of_nat left
    /\ Forall (fun e => e = FetchHF (hf_request prompt) \/ e = Sleep 10000 \/ e = Sleep 2000)
         (snd (retry_loop prompt retries up left i)).
Proof.
  induction left as [|left IH]; intros i.
  - cbn. repeat split; try lia. constructor.
  - rewrite retry_loop_step. specialize (IH (S i)).
    destruct IH as [Hmax [_ [Hwait Hall]]].
    unfold fetches in *.
    destruct (attempt (up i)) as [[]|[w|e]].
    + cbn [snd filter is_fetch List.length waited]. repeat split; try lia.
      constructor; [auto|]. constructor; [auto|exact Hall].
    + cbn. repeat split; try lia. constructor; [auto|constructor].
    + destruct (i =? retries - 1)%nat.
      * cbn. repeat split; try lia. constructor; [auto|constructor].
      * cbn [snd filter is_fetch List.length waited]. repeat split; try lia.
        constructor; [auto|]. constructor; [auto|exact Hall].
Qed.

(** X12.  [callHuggingFace] never calls the upstream more often than
    [retries] times, and at least once when [retries] is not zero; every
    call posts the same body, built from the prompt; and it only ever
    waits 10 or 2 seconds at a time, at most [10 * retries] seconds in
    all. *)
Theorem callHuggingFace_bounded prompt up retries :
  let events := snd (callHuggingFace prompt up retries) in
  (Nat.min 1 retries <= fetches events <= retries)%nat
  /\ 0 <= waited events <= 10000 * Z.of_nat retries
  /\ Forall (fun e => e = FetchHF (hf_request prompt) \/ e = Sleep 10000 \/ e = Sleep 2000)
       events.
Proof.
  cbv zeta. unfold callHuggingFace.
  destruct (retry_loop_bounded prompt retries up retries 0%nat)
    as [Hmax [Hmin [Hwait Hall]]].
  repeat split; try assumption; lia.
Qed.

Lemma retry_loop_throws prompt retries up e :
  forall left i,
    (i + left = retries)%nat ->
    fst (retry_loop prompt retries up left i) = Throw e ->
    fetches (snd (retry_loop prompt retries up left i)) = left
    /\ attempt (up (retries - 1)%nat) = inr (Throw e).
Proof.
  induction left as [|left IH]; intros i Hsum; [discriminate|].
  rewrite retry_loop_step. specialize (IH (S i)).
  unfold fetches in *.
  destruct (attempt (up i)) as [[]|[w|e0]] eqn:Hatt.
  - cbn [fst snd filter is_fetch List.length]. intros Hthrow.
    destruct (IH ltac:(lia) Hthrow) as [Hcount Hlast]. split; [lia|exact Hlast].
  - discriminate.
  - destruct (Nat.eqb_spec i (retries - 1)) as [Hi|Hi].
    + cbn. intros Hthrow. injection Hthrow as ->.
      split; [lia|]. rewrite <- Hi. exact Hatt.
    + cbn [fst snd filter is_fetch List.length]. intros Hthrow.
      destruct (IH ltac:(lia) Hthrow) as [Hcount Hlast]. split; [lia|exact Hlast].
Qed.

(** X13.  [callHuggingFace] raises an error only when the budget is used
    up: if it throws, it has called the upstream exactly [retries] times,
    and the error is the one of the last attempt. *)
Theorem callHuggingFace_throws_last prompt up retries e :
  fst (callHuggingFace prompt up retries) = Throw e ->
  fetches (snd (callHuggingFace prompt up retries)) = retries
  /\ attempt (up (retries - 1)%nat) = inr (Throw e).
Proof.
  unfold callHuggingFace. apply retry_loop_throws. reflexivity.
Qed.

(** ** What [callHuggingFace] returns *)

(** X14.  The shape test returns a value exactly in three cases: a list
    whose first element is an object with a truthy [generated_text], an
    object with a truthy [generated_text] (that field is returned), and a
    text (returned as it is).  A [generated_text] that is present but
    empty, zero, false or null is not accepted, and the value returned is
    never [undefined]. *)
Theorem normalise_accepts data v :
  (normalise data = Ok v
   <-> match data with
       | JArr (first :: _) =>
           v = get_optional (Some first) "generated_text" /\ truthy v = true
       | JObj fields => v = lookup "generated_text" fields /\ truthy v = true
       | JStr _ => v = Some data
       | _ => False
       end)
  /\ (normalise data = Ok v -> v <> undefined).
Proof.
  assert (Hiff : normalise data = Ok v
   <-> match data with
       | JArr (first :: _) =>
           v = get_optional (Some first) "generated_text" /\ truthy v = true
       | JObj fields => v = lookup "generated_text" fields /\ truthy v = true
       | JStr _ => v = Some data
       | _ => False
       end).
  { destruct data as [|b|n|s|items|fields]; unfold normalise;
      cbn [Array_isArray index0 bind get typeof_string truthy].
    - split; [discriminate|contradiction].
    - split; [discriminate|contradiction].
    - split; [discriminate|contradiction].
    - split; [intros Hv; injection Hv as <-; reflexivity|intros ->; reflexivity].
    - destruct items as [|first rest]; cbn [hd_error].
      + cbn. split; [discriminate|contradiction].
      + destruct (truthy (get_optional (Some first) "generated_text")) eqn:Ht.
        * assert (Hget : get (Some first) "generated_text"
                         = Ok (get_optional (Some first) "generated_text")).
          { destruct first; try discriminate. reflexivity. }
          rewrite Hget. split.
          -- intros Hv. injection Hv as <-. split; [reflexivity|exact Ht].
          -- intros [-> _]. reflexivity.
        * split; [cbn; discriminate|]. intros [-> Hv]. rewrite Ht in Hv. discriminate.
    - destruct (truthy (lookup "generated_text" fields)) eqn:Ht.
      + split.
        * intros Hv. injection Hv as <-. split; [reflexivity|exact Ht].
        * intros [-> _]. reflexivity.
      + split; [discriminate|]. intros [-> Hv]. rewrite Ht in Hv. discriminate. }
  split; [exact Hiff|].
  intros Hok. apply Hiff in Hok. intros ->.
  destruct data as [|b|n|s|[|first rest]|fields];
    try contradiction; try discriminate; destruct Hok; discriminate.
Qed.

Lemma normalise_defined data v : normalise data = Ok v -> v <> undefined.
Proof.
  unfold normalise.
  destruct data as [|b|n|s|items|fields];
    cbn [Array_isArray index0 bind get typeof_string truthy]; try discriminate.
  - intros Hv. injection Hv as <-. discriminate.
  - destruct items as [|first rest]; cbn [hd_error]; [discriminate|].
    destruct (truthy (get_optional (Some first) "generated_text")) eqn:Ht;
      [|discriminate].
    destruct first; try discriminate.
    cbn in *. intros Hv. injection Hv as <-. intros Hnone.
    unfold undefined in Hnone. rewrite Hnone in Ht. discriminate.
  - destruct (truthy (lookup "generated_text" fields)) eqn:Ht; [|discriminate].
    intros Hv. injection Hv as <-. intros Hnone.
    unfold undefined in Hnone. rewrite Hnone in Ht. discriminate.
Qed.

Lemma attempt_defined f v : attempt f = inr (Ok v) -> v <> undefined.
Proof.
  unfold attempt. destruct f as [e|response]; [discriminate|].
  destruct (status response =? 503); [discriminate|].
  destruct (negb (ok response)); [discriminate|].
  destruct (parsed response) as [data|e]; [|discriminate].
  cbn [bind]. intros Hv. apply (normalise_defined data).
  congruence.
Qed.

Lemma attempt_cold f :
  attempt f = inl tt <-> exists response, f = Responded response /\ status response = 503.
Proof.
  unfold attempt. destruct f as [e|response].
  - split; [discriminate|]. intros [r [Hr _]]. discriminate.
  - destruct (Z.eqb_spec (status response) 503) as [Hs|Hs].
    + split; [intros _; exists response; split; [reflexivity|exact Hs]|reflexivity].
    + split.
      * destruct (negb (ok response)); discriminate.
      * intros [r [Hr Hcold]]. injection Hr as <-. contradiction.
Qed.

Lemma retry_loop_undefined prompt retries up :
  forall left i,
    (i + left = retries)%nat ->
    fst (retry_loop prompt retries up left i) = Ok undefined ->
    fetches (snd (retry_loop prompt retries up left i)) = left
    /\ (left = 0%nat \/ attempt (up (retries - 1)%nat) = inl tt).
Proof.
  induction left as [|left IH]; intros i Hsum;
    [intros _; split; [reflexivity|apply or_introl; reflexivity]|].
  rewrite retry_loop_step. specialize (IH (S i)).
  unfold fetches in *.
  destruct (attempt (up i)) as [[]|[w|e0]] eqn:Hatt.
  - cbn [fst snd filter is_fetch List.length]. intros Hnone.
    destruct (IH ltac:(lia) Hnone) as [Hcount Hlast]. split; [lia|]. right.
    destruct Hlast as [Hzero|Hlast]; [|exact Hlast].
    replace (retries - 1)%nat with i by lia. exact Hatt.
  - cbn. intros Hw. injection Hw as ->.
    exfalso. apply (attempt_defined _ _ Hatt). reflexivity.
  - destruct (Nat.eqb_spec i (retries - 1)) as [Hi|Hi]; [discriminate|].
    cbn [fst snd filter is_fetch List.length]. intros Hnone.
    destruct (IH ltac:(lia) Hnone) as [Hcount Hlast]. split; [lia|]. right.
    destruct Hlast as [Hzero|Hlast]; [lia|exact Hlast].
Qed.

(** X15.  [callHuggingFace] returns [undefined] only by running out of
    attempts on a cold start: if it does, with [retries] not zero, it has
    called the upstream [retries] times and the last answer had status
    503.  No answer of the upstream is ever turned into [undefined]. *)
Theorem callHuggingFace_undefined_only_cold prompt up retries :
  retries <> 0%nat ->
  fst (callHuggingFace prompt up retries) = Ok undefined ->
  fetches (snd (callHuggingFace prompt up retries)) = retries
  /\ exists response,
       up (retries - 1)%nat = Responded response /\ status response = 503.
Proof.
  intros Hretries Hnone. unfold callHuggingFace in *.
  destruct (retry_loop_undefined prompt retries up retries 0%nat eq_refl Hnone)
    as [Hcount [Hzero|Hlast]]; [contradiction|].
  split; [exact Hcount|]. apply attempt_cold, Hlast.
Qed.

Lemma retry_loop_first_value prompt retries up w :
  forall k left i,
    (i + left = retries)%nat ->
    (k < left)%nat ->
    (forall j, (i <= j < i + k)%nat -> forall u, attempt (up j) <> inr (Ok u)) ->
    attempt (up (i + k)%nat) = inr (Ok w) ->
    fst (retry_loop prompt retries up left i) = Ok w
    /\ fetches (snd (retry_loop prompt retries up left i)) = S k.
Proof.
  induction k as [|k IH]; intros left i Hsum Hk Hbefore Hvalue.
  - destruct left as [|left]; [lia|]. rewrite retry_loop_step.
    rewrite Nat.add_0_r in Hvalue. rewrite Hvalue. split; reflexivity.
  - destruct left as [|left]; [lia|]. rewrite retry_loop_step.
    assert (Hnext : fst (retry_loop prompt retries up left (S i)) = Ok w
                    /\ fetches (snd (retry_loop prompt retries up left (S i))) = S k).
    { apply IH; try lia.
      - intros j Hj. apply Hbefore. lia.
      - replace (S i + k)%nat with (i + S k)%nat by lia. exact Hvalue. }
    destruct Hnext as [Hfst Hcount]. unfold fetches in *.
    destruct (attempt (up i)) as [[]|[u|e]] eqn:Hatt.
    + cbn [fst snd filter is_fetch List.length]. split; [exact Hfst|lia].
    + exfalso. apply (Hbefore i ltac:(lia) u). exact Hatt.
    + destruct (Nat.eqb_spec i (retries - 1)) as [Hi|Hi]; [lia|].
      cbn [fst snd filter is_fetch List.length]. split; [exact Hfst|lia].
Qed.

(** X16.  The first attempt that yields a value decides: when attempt [k]
    (counted from 0, below [retries]) is the first whose answer passes the
    shape test, [callHuggingFace] returns that value after exactly [k + 1]
    calls, whatever the earlier attempts were (cold starts, failed
    fetches, error statuses, unrecognised bodies) and whatever the
    upstream would have answered afterwards. *)
Theorem callHuggingFace_first_value prompt up retries k w :
  (k < retries)%nat ->
  (forall j, (j < k)%nat -> forall u, attempt (up j) <> inr (Ok u)) ->
  attempt (up k) = inr (Ok w) ->
  fst (callHuggingFace prompt up retries) = Ok w
  /\ fetches (snd (callHuggingFace prompt up retries)) = S k.
Proof.
  intros Hk Hbefore Hvalue. unfold callHuggingFace.
  apply (retry_loop_first_value prompt retries up w k retries 0%nat);
    try reflexivity; try assumption.
  intros j Hj. apply Hbefore. lia.
Qed.

(** ** [buildPrompt] over a history *)

Lemma append_assoc (a b c : string) : ((a ++ b) ++ c = a ++ (b ++ c))%string.
Proof. induction a as [|x a IH]; cbn; [reflexivity|rewrite IH; reflexivity]. Qed.

Lemma prompt_step_appends prompt msg :
  prompt_step prompt msg = (piece <- prompt_step "" msg ;; Ok (prompt ++ piece)).
Proof.
  unfold prompt_step.
  destruct (get (Some msg) "role") as [role|e]; [|reflexivity]. cbn [bind].
  destruct (strict_eq_string role "system").
  { destruct (get (Some msg) "content") as [content|e]; [|reflexivity].
    cbn [bind]. destruct (to_string content); reflexivity. }
  destruct (strict_eq_string role "user").
  { destruct (get (Some msg) "content") as [content|e]; [|reflexivity].
    cbn [bind]. destruct (to_string content); reflexivity. }
  destruct (strict_eq_string role "assistant").
  { destruct (get (Some msg) "content") as [content|e]; [|reflexivity].
    cbn [bind]. destruct (to_string content); reflexivity. }
  cbn. induction prompt as [|x p IH]; cbn; [reflexivity|].
  injection IH as IH. rewrite <- IH. reflexivity.
Qed.

Lemma buildPrompt_from_appends msgs :
  forall prompt,
    buildPrompt_from prompt msgs = (built <- buildPrompt msgs ;; Ok (prompt ++ built)).
Proof.
  unfold buildPrompt.
  induction msgs as [|msg rest IH]; intros prompt; cbn [buildPrompt_from bind].
  - clear. induction prompt as [|x p IH]; cbn; [reflexivity|].
    injection IH as IH. rewrite <- IH. reflexivity.
  - rewrite (prompt_step_appends prompt msg).
    destruct (prompt_step "" msg) as [piece|e]; cbn [bind]; [|reflexivity].
    rewrite (IH (prompt ++ piece)), (IH piece).
    destruct (buildPrompt_from "" rest) as [built|e]; cbn [bind]; [|reflexivity].
    rewrite append_assoc. reflexivity.
Qed.

Lemma buildPrompt_from_app earlier later :
  forall prompt,
    buildPrompt_from prompt (earlier ++ later)%list
    = (p <- buildPrompt_from prompt earlier ;; buildPrompt_from p later).
Proof.
  induction earlier as [|msg rest IH]; intros prompt; cbn [app buildPrompt_from bind].
  - reflexivity.
  - destruct (prompt_step prompt msg) as [p|e]; cbn [bind]; [apply IH|reflexivity].
Qed.

(** X17.  The prompt of a history is the concatenation of the prompts of
    its parts: each message adds its own piece, whatever came before it;
    and when the earlier part makes [buildPrompt] throw, so does the
    whole. *)
Theorem buildPrompt_concatenates earlier later :
  buildPrompt (earlier ++ later)%list
  = match buildPrompt earlier with
    | Ok first =>
        match buildPrompt later with
        | Ok second => Ok (first ++ second)
        | Throw e => Throw e
        end
    | Throw e => Throw e
    end.
Proof.
  unfold buildPrompt at 1. rewrite buildPrompt_from_app.
  fold (buildPrompt earlier).
  destruct (buildPrompt earlier) as [first|e]; cbn [bind]; [|reflexivity].
  rewrite buildPrompt_from_appends.
  destruct (buildPrompt later); reflexivity.
Qed.

Lemma json_nested_ind (P : json -> Prop) :
  P JNull ->
  (forall b, P (JBool b)) ->
  (forall n, P (JNum n)) ->
  (forall s, P (JStr s)) ->
  (forall items, Forall P items -> P (JArr items)) ->
  (forall fields, P (JObj fields)) ->
  forall j, P j.
Proof.
  intros Hnull Hbool Hnum Hstr Harr Hobj.
  fix IH 1. intros [|b|n|s|items|fields].
  - exact Hnull.
  - apply Hbool.
  - apply Hnum.
  - apply Hstr.
  - apply Harr.
    exact ((fix all (l : list json) : Forall P l :=
              match l with
              | [] => Forall_nil P
              | x :: r => Forall_cons x (IH x) (all r)
              end) items).
  - apply Hobj.
Qed.

Lemma json_to_string_cons x r :
  json_to_string (JArr (x :: r))
  = (first <- (match x with JNull => Ok "" | _ => json_to_string x end) ;;
     rest <- (match r with
              | [] => Ok ""
              | _ => (tail <- json_to_string (JArr r) ;; Ok ("," ++ tail))
              end) ;;
     Ok (first ++ rest)).
Proof. reflexivity. Qed.

Lemma printable_cons x r :
  printable (JArr (x :: r)) = printable x && printable (JArr r).
Proof. reflexivity. Qed.

(** The conversion gives a text on a printable value and throws on any
    other. *)
Lemma json_to_string_printable j :
  if printable j then exists s, json_to_string j = Ok s
  else json_to_string j = Throw (TypeError "Cannot convert object to primitive value").
Proof.
  induction j as [|b|n|s|items Hitems|fields] using json_nested_ind.
  - eexists; reflexivity.
  - destruct b; eexists; reflexivity.
  - eexists; reflexivity.
  - eexists; reflexivity.
  - induction Hitems as [|x r Hx Hr IH]; [eexists; reflexivity|].
    rewrite json_to_string_cons, printable_cons.
    destruct (printable x) eqn:Hpx; cbn [andb].
    + assert (Hfirst : exists first,
                (match x with JNull => Ok "" | _ => json_to_string x end) = Ok first).
      { destruct Hx as [first Hfirst]. destruct x; eexists; try exact Hfirst; reflexivity. }
      destruct Hfirst as [first ->]. cbn [bind].
      destruct r as [|y r]; [eexists; reflexivity|].
      destruct (printable (JArr (y :: r))).
      * destruct IH as [tail ->]. eexists; reflexivity.
      * rewrite IH. reflexivity.
    + destruct x; try discriminate; rewrite Hx; reflexivity.
  - cbn. destruct (lookup "toString" fields); [reflexivity|eexists; reflexivity].
Qed.

Lemma to_string_printable v :
  if printable_value v then exists s, to_string v = Ok s
  else to_string v = Throw (TypeError "Cannot convert object to primitive value").
Proof.
  destruct v as [j|]; [apply json_to_string_printable|eexists; reflexivity].
Qed.

(** One step of the loop on an entry: it throws on an entry that breaks
    the prompt, with one of two errors, and goes through on any other. *)
Lemma prompt_step_breaks prompt m :
  if breaks_prompt m
  then prompt_step prompt m
       = Throw (TypeError "Cannot read properties of null (reading 'role')")
       \/ prompt_step prompt m
          = Throw (TypeError "Cannot convert object to primitive value")
  else exists p, prompt_step prompt m = Ok p.
Proof.
  destruct m as [|b|n|s|items|fields];
    try (cbn; eexists; reflexivity).
  - left. reflexivity.
  - unfold breaks_prompt, speaks, prompt_step.
    cbn [get get_optional bind].
    pose proof (to_string_printable (lookup "content" fields)) as Hprint.
    destruct (strict_eq_string (lookup "role" fields) "system"); cbn [orb andb].
    { destruct (printable_value (lookup "content" fields)); cbn [negb].
      - destruct Hprint as [printed ->]. eexists; reflexivity.
      - right. rewrite Hprint. reflexivity. }
    destruct (strict_eq_string (lookup "role" fields) "user"); cbn [orb andb].
    { destruct (printable_value (lookup "content" fields)); cbn [negb].
      - destruct Hprint as [printed ->]. eexists; reflexivity.
      - right. rewrite Hprint. reflexivity. }
    destruct (strict_eq_string (lookup "role" fields) "assistant"); cbn [orb andb].
    { destruct (printable_value (lookup "content" fields)); cbn [negb].
      - destruct Hprint as [printed ->]. eexists; reflexivity.
      - right. rewrite Hprint. reflexivity. }
    eexists; reflexivity.
Qed.

Lemma buildPrompt_from_breaks msgs :
  forall prompt,
    if existsb breaks_prompt msgs
    then buildPrompt_from prompt msgs
         = Throw (TypeError "Cannot read properties of null (reading 'role')")
         \/ buildPrompt_from prompt msgs
            = Throw (TypeError "Cannot convert object to primitive value")
    else exists p, buildPrompt_from prompt msgs = Ok p.
Proof.
  induction msgs as [|m rest IH]; intros prompt; [eexists; reflexivity|].
  cbn [existsb buildPrompt_from].
  pose proof (prompt_step_breaks prompt m) as Hstep.
  destruct (breaks_prompt m); cbn [orb].
  - destruct Hstep as [-> | ->]; [left|right]; reflexivity.
  - destruct Hstep as [p ->]. cbn [bind]. apply IH.
Qed.

(** X18.  [buildPrompt] throws exactly when the history holds an entry
    that is null, or an entry with role system, user or assistant whose
    content cannot be turned into text; a content cannot be turned into
    text exactly when it is an object with a field of its own named
    [toString], or a list holding such an object at any depth.  The error
    is then the TypeError of reading [role] of null or the TypeError of
    the conversion.  Every other entry is read without error: one of
    another shape (a number, a text, an array), one without role or
    content, one whose role is none of the three whatever its content. *)
Theorem buildPrompt_throws_exactly msgs :
  ((exists e, buildPrompt msgs = Throw e) <-> existsb breaks_prompt msgs = true)
  /\ (forall e, buildPrompt msgs = Throw e ->
        e = TypeError "Cannot read properties of null (reading 'role')"
        \/ e = TypeError "Cannot convert object to primitive value")
  /\ (forall j, (exists e, json_to_string j = Throw e) <-> printable j = false).
Proof.
  unfold buildPrompt.
  pose proof (buildPrompt_from_breaks msgs "") as Hbuild.
  split; [|split].
  - destruct (existsb breaks_prompt msgs).
    + split; [reflexivity|]. intros _.
      destruct Hbuild as [-> | ->]; eexists; reflexivity.
    + destruct Hbuild as [p ->]. split; [intros [e He]|]; discriminate.
  - intros e He. destruct (existsb breaks_prompt msgs).
    + destruct Hbuild as [Hb|Hb]; rewrite Hb in He; injection He as <-; auto.
    + destruct Hbuild as [p Hb]. rewrite Hb in He. discriminate.
  - intros j. pose proof (json_to_string_printable j) as Hj.
    destruct (printable j).
    + destruct Hj as [s ->]. split; [intros [e He]|]; discriminate.
    + split; [reflexivity|]. intros _. eexists. exact Hj.
Qed.

(** ** [callClaude]: one call, no retry *)

Lemma filter_not_system_null msgs :
  In JNull msgs ->
  filter_not_system msgs
  = Throw (TypeError "Cannot read properties of null (reading 'role')").
Proof.
  induction msgs as [|msg rest IH]; intros Hin; [contradiction|].
  cbn [filter_not_system].
  destruct msg as [|b|n|s|items|fields]; try reflexivity;
    (destruct Hin as [Hmsg|Hin]; [discriminate|]);
    cbn [get bind]; rewrite (IH Hin); reflexivity.
Qed.

Lemma find_system_result msgs :
  (exists found, find_system msgs = Ok found)
  \/ find_system msgs
     = Throw (TypeError "Cannot read properties of null (reading 'role')").
Proof.
  induction msgs as [|msg rest IH]; [left; eexists; reflexivity|].
  cbn [find_system].
  destruct msg as [|b|n|s|items|fields]; try (right; reflexivity);
    cbn [get bind]; try exact IH.
  destruct (strict_eq_string _ _); [left; eexists; reflexivity|exact IH].
Qed.

Lemma callClaude_null msgs up :
  In JNull msgs ->
  callClaude msgs up
  = (Throw (TypeError "Cannot read properties of null (reading 'role')"), []).
Proof.
  intros Hin. unfold callClaude.
  destruct (find_system_result msgs) as [[found ->]| ->]; cbn [bind].
  - rewrite (filter_not_system_null _ Hin). reflexivity.
  - reflexivity.
Qed.

Lemma not_null_entries (msgs : list json) :
  ~ In JNull msgs -> Forall (fun m => m <> JNull) msgs.
Proof.
  intros Hno. apply Forall_forall. intros m Hin ->. contradiction.
Qed.

Lemma callClaude_entries msgs up :
  ~ In JNull msgs ->
  exists posted, callClaude msgs up = (claude_reply (up 0%nat), [FetchClaude posted]).
Proof.
  intros Hno. apply not_null_entries in Hno. unfold callClaude.
  rewrite (find_system_find _ Hno), (filter_not_system_filter _ Hno).
  cbn [bind]. unfold claude_request.
  destruct (find is_system msgs) as [first|] eqn:Hfind.
  - apply find_some in Hfind. destruct Hfind as [_ Hsys].
    rewrite (system_content _ Hsys). cbn [bind]. eexists. reflexivity.
  - cbn [truthy bind]. eexists. reflexivity.
Qed.

Lemma In_JNull_dec (msgs : list json) : In JNull msgs \/ ~ In JNull msgs.
Proof.
  induction msgs as [|msg rest [IH|IH]].
  - right. intros [].
  - left. right. exact IH.
  - destruct msg; try (right; intros [Hm|Hm]; [discriminate|contradiction]).
    left. left. reflexivity.
Qed.

(** X19.  [callClaude] calls the upstream at most once and never waits:
    there is no retry.  It makes no call at all exactly when an entry of
    the history is null, in which case it throws the TypeError of reading
    [role] of null; otherwise it makes exactly one call and its result is
    read off that one answer. *)
Theorem callClaude_calls_once msgs up :
  (fetches (snd (callClaude msgs up)) <= 1)%nat
  /\ waited (snd (callClaude msgs up)) = 0
  /\ (snd (callClaude msgs up) = [] <-> In JNull msgs)
  /\ (In JNull msgs ->
        fst (callClaude msgs up)
        = Throw (TypeError "Cannot read properties of null (reading 'role')"))
  /\ (~ In JNull msgs ->
        fetches (snd (callClaude msgs up)) = 1%nat
        /\ fst (callClaude msgs up) = claude_reply (up 0%nat)).
Proof.
  destruct (In_JNull_dec msgs) as [Hin|Hno].
  - rewrite (callClaude_null _ up Hin). cbn [fst snd].
    split; [cbn; lia|]. split; [reflexivity|].
    split; [split; [intros _; exact Hin|reflexivity]|].
    split; [reflexivity|]. intros Hno. contradiction.
  - destruct (callClaude_entries msgs up Hno) as [posted ->]. cbn [fst snd].
    split; [cbn; lia|]. split; [reflexivity|].
    split; [split; [discriminate|intros Hin; contradiction]|].
    split; [intros Hin; contradiction|]. intros _. split; reflexivity.
Qed.

(** X20.  In the structured-message server, when the upstream answers an
    admitted request (history without null entry) with a status outside
    200..299, the request is answered 500 after that single call, the
    error caught being "Claude API error: <status> - <text of the answer>",
    and the request is not counted. *)
Theorem structured_upstream_error `{Platform} env req amb g msgs response :
  admitted Structured env req amb g = Some msgs ->
  ~ In JNull (slice_last 12 msgs) ->
  upstream amb 0%nat = Responded response ->
  ok response = false ->
  let out := chat Structured env req amb g in
  snd (fst out)
  = caught env (Error ("Claude API error: " ++ number_to_string (Int (status response))
                         ++ " - " ++ text response))
  /\ statusCode (snd (fst out)) = 500
  /\ dailyRequestCount (fst (fst out))
     = dailyRequestCount (resetDailyCounter (at_reset amb) g)
  /\ fetches (snd out) = 1%nat
  /\ waited (snd out) = 0.
Proof.
  intros Hadm Hno Hup Hok. cbv zeta.
  rewrite (chat_admitted _ _ _ _ _ _ Hadm).
  cbn [adapter window fst snd].
  destruct (callClaude_entries (slice_last 12 msgs) (upstream amb) Hno) as [posted ->].
  cbn [fst snd]. unfold claude_reply. rewrite Hup, Hok. cbn [negb complete fst snd].
  repeat split. apply resetDailyCounter_after_limiter.
Qed.

(** ** Entries older than the window *)

Lemma slice_last_app {A} (older recent : list A) :
  slice_last (List.length recent) (older ++ recent)%list = recent.
Proof.
  unfold slice_last. rewrite length_app.
  replace (List.length older + List.length recent - List.length recent)%nat
    with (List.length older + 0)%nat by lia.
  rewrite skipn_app, Nat.add_0_r, skipn_all.
  replace (List.length older - List.length older)%nat with 0%nat by lia.
  reflexivity.
Qed.

(** X21.  Entries older than the window have no influence: two requests
    with the same password header, counted alike by the limiter, whose
    histories end with the same [window] entries, get the same answer,
    with the same effect on the globals and the same upstream calls. *)
Theorem chat_ignores_older_entries `{Platform} v env req req' amb g older recent :
  x_demo_password req = x_demo_password req' ->
  rate_hit (60 * 1000) 10 (limiterStore g) req (at_limiter amb)
  = rate_hit (60 * 1000) 10 (limiterStore g) req' (at_limiter amb) ->
  get (Some (body req)) "messages" = Ok (Some (JArr (older ++ recent)%list)) ->
  get (Some (body req')) "messages" = Ok (Some (JArr recent)) ->
  List.length recent = window v ->
  chat v env req amb g = chat v env req' amb g.
Proof.
  intros Hpw Hrate Hlong Hshort Hlen.
  assert (Hwindow : (0 < window v)%nat) by (destruct v; cbn; lia).
  rewrite !chat_cases. unfold passes, after_gates, after_limiter.
  rewrite Hpw, Hrate.
  destruct (negb _); [reflexivity|].
  destruct (negb _); [reflexivity|].
  destruct (negb _); [reflexivity|].
  unfold chat_handler. rewrite Hlong, Hshort.
  destruct (negb (isDemoActive env (at_demo amb))); [reflexivity|].
  assert (Hvalid : forall items, (0 < List.length items)%nat ->
                     invalid_messages (Some (JArr items)) = false).
  { intros items Hitems. rewrite invalid_messages_array. apply Nat.eqb_neq. lia. }
  rewrite !Hvalid by (try rewrite length_app; lia).
  cbn [array_items]. rewrite <- Hlen, slice_last_app.
  rewrite (slice_last_short (List.length recent) recent) by lia.
  reflexivity.
Qed.

(** ** The CORS origin list *)

Lemma split_comma_cons s : exists piece pieces, split_comma s = piece :: pieces.
Proof.
  destruct s as [|c rest]; cbn [split_comma]; [eexists; eexists; reflexivity|].
  destruct (Ascii.eqb c ","%char); [eexists; eexists; reflexivity|].
  destruct (split_comma rest); eexists; eexists; reflexivity.
Qed.

Lemma split_comma_joined s : String.concat "," (split_comma s) = s.
Proof.
  induction s as [|c rest IH]; [reflexivity|]. cbn [split_comma].
  destruct (split_comma_cons rest) as [piece [pieces Hsplit]].
  rewrite Hsplit in *.
  destruct (Ascii.eqb_spec c ","%char) as [->|_].
  - change (String.concat "," (EmptyString :: piece :: pieces))
      with ("" ++ "," ++ String.concat "," (piece :: pieces))%string.
    rewrite IH. reflexivity.
  - destruct pieces as [|next pieces].
    + cbn [String.concat] in *. rewrite IH. reflexivity.
    + change (String.concat "," (String c piece :: next :: pieces))
        with (String c (piece ++ "," ++ String.concat "," (next :: pieces)))%string.
      change (String.concat "," (piece :: next :: pieces))
        with (piece ++ "," ++ String.concat "," (next :: pieces))%string in IH.
      rewrite IH. reflexivity.
Qed.

Lemma split_comma_pieces s : Forall (fun o => has_comma o = false) (split_comma s).
Proof.
  induction s as [|c rest IH]; [repeat constructor|]. cbn [split_comma].
  destruct (split_comma_cons rest) as [piece [pieces Hsplit]].
  rewrite Hsplit in *. inversion IH as [|? ? Hpiece Hpieces]; subst.
  destruct (Ascii.eqb c ","%char) eqn:Hc.
  - constructor; [reflexivity|exact IH].
  - constructor; [|exact Hpieces]. cbn [has_comma]. rewrite Hc, Hpiece. reflexivity.
Qed.

(** X22.  The CORS origin option is the text [*] when [ALLOWED_ORIGINS]
    is unset or empty.  Otherwise it is the list of the pieces between the
    commas of the variable: never empty, no piece holding a comma, and the
    pieces joined by commas give the variable back, so nothing is trimmed
    or dropped (a blank after a comma stays in the origin, an empty piece
    stays in the list). *)
Theorem cors_origin_pieces s :
  s <> "" ->
  cors_origin None = OriginText "*"
  /\ cors_origin (Some "") = OriginText "*"
  /\ exists first others,
       cors_origin (Some s) = OriginList (first :: others)
       /\ String.concat "," (first :: others) = s
       /\ Forall (fun o => has_comma o = false) (first :: others).
Proof.
  intros Hs. split; [reflexivity|]. split; [reflexivity|].
  destruct (split_comma_cons s) as [first [others Hsplit]].
  exists first, others. unfold cors_origin, header. cbn [option_map truthy].
  destruct (String.eqb_spec s "") as [He|_]; [contradiction|]. cbn [negb].
  rewrite Hsplit. split; [reflexivity|].
  rewrite <- Hsplit. split; [apply split_comma_joined|apply split_comma_pieces].
Qed.

(** ** What [/api/chat] leaves of the stored day and the limiter's store *)

Lemma chat_handler_frame `{Platform} v env req amb g :
  lastResetDate (fst (fst (chat_handler v env req amb g))) = lastResetDate g
  /\ limiterStore (fst (fst (chat_handler v env req amb g))) = limiterStore g.
Proof.
  destruct (isDemoActive env (at_demo amb)) eqn:Hx.
  - rewrite (chat_handler_active _ _ _ _ _ Hx).
    destruct (get _ _) as [m|e]; [|split; reflexivity].
    destruct (invalid_messages m); [split; reflexivity|].
    cbn [fst]. unfold complete.
    destruct (fst (adapter _ _ _)) as [w|e]; [|split; reflexivity].
    destruct (call_trim w); split; reflexivity.
  - rewrite (chat_handler_expired _ _ _ _ _ Hx). split; reflexivity.
Qed.

(** X23.  Only the reset check writes the stored day and only the limiter
    writes its store: after an [/api/chat] request the stored day is the
    day of the reset check when the request got past the authentication
    and the rate gate, and is unchanged otherwise; the limiter's store has
    counted the hit when the request got past the authentication, and is
    unchanged otherwise.  Neither the adapter nor the increment of the
    counter touches them. *)
Theorem chat_stored_day `{Platform} v env req amb g :
  let g' := fst (fst (chat v env req amb g)) in
  lastResetDate g'
  = (if passes v env req amb g Auth && passes v env req amb g Rate
     then toDateString (at_reset amb) else lastResetDate g)
  /\ limiterStore g'
     = (if passes v env req amb g Auth
        then fst (rate_hit (60 * 1000) 10 (limiterStore g) req (at_limiter amb))
        else limiterStore g).
Proof.
  cbv zeta. rewrite chat_cases.
  assert (Hday : lastResetDate (after_gates req amb g) = toDateString (at_reset amb))
    by apply resetDailyCounter_day.
  assert (Hstore : limiterStore (after_gates req amb g)
                   = fst (rate_hit (60 * 1000) 10 (limiterStore g) req (at_limiter amb)))
    by (unfold after_gates; apply resetDailyCounter_cases).
  destruct (passes v env req amb g Auth); cbn [negb andb]; [|split; reflexivity].
  destruct (passes v env req amb g Rate); cbn [negb]; [|split; reflexivity].
  destruct (passes v env req amb g Daily); cbn [negb]; [|split; assumption].
  destruct (chat_handler_frame v env req amb (after_gates req amb g)) as [-> ->].
  split; assumption.
Qed.

(** * Concrete runs of the further properties *)

(** A content with a field of its own named [toString] cannot be put
    in the template: the prompt is not built. *)
Example buildPrompt_unprintable_content :
  buildPrompt [said "user" "Who is there?";
               JObj [("role", JStr "user");
                     ("content", JObj [("toString", JNum (Int 1))])]]
  = Throw (TypeError "Cannot convert object to primitive value")
  /\ buildPrompt [JObj [("role", JStr "narrator");
                        ("content", JObj [("toString", JNum (Int 1))])]]
     = Ok "".
Proof. split; reflexivity. Qed.



Lemma daily_gate_closed_witness :
  @chat node Structured (with_limit "5") (asking (Some "echoes2025") haunted)
    (on_day nov_3 [boo]) busy
  = (@after_limiter node (asking (Some "echoes2025") haunted) (on_day nov_3 [boo]) busy,
     rejection Daily, []).
Proof.
  apply (@daily_gate_closed node Structured (with_limit "5")
           (asking (Some "echoes2025") haunted) (on_day nov_3 [boo]) busy 5
           eq_refl eq_refl ltac:(cbn; lia) eq_refl eq_refl).
Defined.



Lemma counter_within_limit_witness :
  0 <= dailyRequestCount
         (@serve_all node Structured (with_limit "5") (@boot node nov_3 no_hits)
            [PostChat (asking (Some "echoes2025") haunted) (on_day nov_3 [boo]);
             PostChat (asking (Some "echoes2025") haunted) (on_day nov_4 [boo])])
  <= 5.
Proof.
  apply (@counter_within_limit node Structured (with_limit "5") 5 eq_refl ltac:(lia)).
Defined.

Lemma health_numbers_add_up_witness :
  exists c,
    0 <= c <= 5
    /\ field (payload (snd (@health node Structured (with_limit "5") (asking None [])
                              (on_day nov_3 [])
                              (@serve_all node Structured (with_limit "5")
                                 (@boot node nov_3 no_hits)
                                 [PostChat (asking (Some "echoes2025") haunted)
                                    (on_day nov_3 [boo])]))))
         "requestsToday" = Some (JNum (Int c))
    /\ field (payload (snd (@health node Structured (with_limit "5") (asking None [])
                              (on_day nov_3 [])
                              (@serve_all node Structured (with_limit "5")
                                 (@boot node nov_3 no_hits)
                                 [PostChat (asking (Some "echoes2025") haunted)
                                    (on_day nov_3 [boo])]))))
         "remainingToday" = Some (JNum (Int (5 - c)))
    /\ field (payload (snd (@health node Structured (with_limit "5") (asking None [])
                              (on_day nov_3 [])
                              (@serve_all node Structured (with_limit "5")
                                 (@boot node nov_3 no_hits)
                                 [PostChat (asking (Some "echoes2025") haunted)
                                    (on_day nov_3 [boo])]))))
         "dailyLimit" = Some (JNum (Int 5)).
Proof.
  apply (@health_numbers_add_up node Structured (with_limit "5") 5 eq_refl ltac:(lia)).
Defined.

Lemma demo_expiry_is_permanent_witness :
  @isDemoActive node defaults jan_3 = false.
Proof.
  apply (@demo_expiry_is_permanent node defaults jan_2 jan_3 ltac:(cbn; lia) eq_refl).
Defined.

Lemma invalid_end_date_closes_demo_witness :
  snd (@chat node Structured (with_end_date "soon") (asking (Some "echoes2025") haunted)
         (on_day nov_3 [boo]) busy) = [].
Proof.
  apply (@invalid_end_date_closes_demo node Structured (with_end_date "soon")
           (asking (Some "echoes2025") haunted) (on_day nov_3 [boo]) busy eq_refl).
Defined.

Lemma chat_hides_error_detail_witness :
  payload (snd (fst (@chat node Structured defaults (asking (Some "echoes2025") haunted)
                       (on_day nov_3 [refused]) busy)))
  = JObj [("error", JStr "An error occurred."); ("details", JStr "Please try again")].
Proof.
  apply (@chat_hides_error_detail node Structured defaults
           (asking (Some "echoes2025") haunted) (on_day nov_3 [refused]) busy
           ltac:(discriminate) eq_refl).
Defined.

Lemma chat_counts_what_the_adapter_returns_witness :
  dailyRequestCount
    (fst (fst (@chat node Prompt defaults (asking (Some "echoes2025") haunted)
                 (on_day nov_3 [cold; cold; cold]) busy)))
  = dailyRequestCount (@resetDailyCounter node nov_3 busy) + 1.
Proof.
  destruct (@chat_counts_what_the_adapter_returns node Prompt defaults
              (asking (Some "echoes2025") haunted) (on_day nov_3 [cold; cold; cold])
              busy haunted eq_refl) as [[_ Hcounted] _].
  apply Hcounted. exists undefined. reflexivity.
Defined.

Lemma callHuggingFace_throws_last_witness :
  fetches (snd (callHuggingFace "Who is there?" (script []) 3)) = 3%nat
  /\ attempt (script [] 2%nat) = inr (Throw (TypeError "fetch failed")).
Proof.
  apply (callHuggingFace_throws_last "Who is there?" (script []) 3
           (TypeError "fetch failed") eq_refl).
Defined.

Lemma callHuggingFace_undefined_only_cold_witness :
  fetches (snd (callHuggingFace "Who is there?" (script [cold; cold; cold]) 3)) = 3%nat
  /\ exists response,
       script [cold; cold; cold] 2%nat = Responded response /\ status response = 503.
Proof.
  apply (callHuggingFace_undefined_only_cold "Who is there?" (script [cold; cold; cold]) 3
           ltac:(discriminate) eq_refl).
Defined.

Lemma callHuggingFace_first_value_witness :
  fst (callHuggingFace "Who is there?" (script [cold; only_me; refused]) 3)
  = Ok (Some (JStr "Only me"))
  /\ fetches (snd (callHuggingFace "Who is there?" (script [cold; only_me; refused]) 3))
     = 2%nat.
Proof.
  apply (callHuggingFace_first_value "Who is there?" (script [cold; only_me; refused]) 3 1
           (Some (JStr "Only me")) ltac:(lia)); [|reflexivity].
  intros j Hj u. destruct j as [|j]; [discriminate|lia].
Defined.

Lemma structured_upstream_error_witness :
  statusCode (snd (fst (@chat node Structured defaults (asking (Some "echoes2025") haunted)
                          (on_day nov_3 [refused]) busy))) = 500
  /\ dailyRequestCount
       (fst (fst (@chat node Structured defaults (asking (Some "echoes2025") haunted)
                    (on_day nov_3 [refused]) busy)))
     = dailyRequestCount (@resetDailyCounter node nov_3 busy)
  /\ fetches (snd (@chat node Structured defaults (asking (Some "echoes2025") haunted)
                     (on_day nov_3 [refused]) busy)) = 1%nat
  /\ waited (snd (@chat node Structured defaults (asking (Some "echoes2025") haunted)
                    (on_day nov_3 [refused]) busy)) = 0.
Proof.
  apply (@structured_upstream_error node defaults (asking (Some "echoes2025") haunted)
           (on_day nov_3 [refused]) busy haunted
           {| status := 401;
              text := "invalid x-api-key";
              parsed := Throw (SyntaxError "Unexpected token i in JSON at position 0") |}
           eq_refl); try reflexivity.
  intros [Hm|[Hm|[Hm|[]]]]; discriminate.
Defined.

Lemma chat_ignores_older_entries_witness :
  @chat node Structured defaults (asking (Some "echoes2025") chatter)
    (on_day nov_3 [boo]) busy
  = @chat node Structured defaults (asking (Some "echoes2025") (skipn 8 chatter))
      (on_day nov_3 [boo]) busy.
Proof.
  apply (@chat_ignores_older_entries node Structured defaults
           (asking (Some "echoes2025") chatter)
           (asking (Some "echoes2025") (skipn 8 chatter))
           (on_day nov_3 [boo]) busy (firstn 8 chatter) (skipn 8 chatter));
    reflexivity.
Defined.

Lemma cors_origin_pieces_witness :
  cors_origin None = OriginText "*"
  /\ cors_origin (Some "") = OriginText "*"
  /\ exists first others,
       cors_origin (Some "https://a.example, https://b.example")
       = OriginList (first :: others)
       /\ String.concat "," (first :: others) = "https://a.example, https://b.example"
       /\ Forall (fun o => has_comma o = false) (first :: others).
Proof.
  apply (cors_origin_pieces "https://a.example, https://b.example"). discriminate.
Defined.
